(** * GenAI-Summarization: the Perplexity client wrapper and the chat turn

    A shallow embedding of [PerplexityClient.py] (the client wrapper) and of
    the chat-turn handler of [app.py] (the conversation orchestrator), with
    the properties of the specification proved about them.

    Python objects that the program shares and mutates (the message dicts
    and the lists holding them) live in an explicit heap; generator
    functions are state machines advanced by a [next] function; the remote
    provider is a deterministic function of the request. *)

From Stdlib Require Import Ascii String.
From stdpp Require Import base option list strings gmap.

Open Scope string_scope.
Open Scope list_scope.

(** ** Python values, truthiness and exceptions *)

Module Py.

(** The values the program passes where a [str] or [None] is expected. *)
Inductive value :=
| PyNone
| PyStr (s : string).

(** [bool(v)]: [None] and the empty string are falsy. *)
Definition truthy (v : value) : bool :=
  match v with
  | PyNone => false
  | PyStr s => negb (String.eqb s "")
  end.

(** [a or b]. *)
Definition or_ (a b : value) : value :=
  if truthy a then a else b.

(** [a or d] where the fallback [d] is a string constant or attribute. *)
Definition or_str (a : value) (d : string) : string :=
  match or_ a (PyStr d) with
  | PyStr s => s
  | PyNone => d
  end.

(** [str(v)], as an f-string placeholder formats it. *)
Definition str (v : value) : string :=
  match v with
  | PyNone => "None"
  | PyStr s => s
  end.

(** Exception classes below [Exception] that the program meets.
    [OpenAIError] is the provider library's base class. *)
Inductive exn_class :=
| OpenAIError
| ValueError
| IndexError
| OtherException (name : string).

(** An exception object: its class and [str(e)]. *)
Record exn := Exn { exn_cls : exn_class; exn_str : string }.

Definition is_OpenAIError (e : exn) : bool :=
  match exn_cls e with
  | OpenAIError => true
  | _ => false
  end.

(** What [next(g)] on a generator produces: a yielded fragment,
    [StopIteration(value)], or another exception. *)
Inductive next_result :=
| Yield (s : string)
| StopIteration (v : value)
| Raise (e : exn).

(** What a call expression evaluates to in this program: an ordinary
    string, [None], or a generator object (parameterised by the type of
    its suspended frame). *)
Inductive call_result (G : Type) :=
| RetValue (v : value)
| RetGenerator (g : G).
Global Arguments RetValue {G} v.
Global Arguments RetGenerator {G} g.

End Py.

Import Py.

Definition nl : string := String (Ascii.ascii_of_nat 10) "".

(** ** Messages, provider replies *)

(** A message dict [{"role": ..., "content": ...}]. *)
Record Message := { role : string; content : Py.value }.

(** [choices[i].message.content] of a buffered completion. *)
Record Choice := { message_content : Py.value }.
Record ChatCompletion := { choices : list Choice }.

(** A streaming chunk. [None] stands for an absent attribute
    ([hasattr] false, or the default of [getattr]). *)
Record Delta := { delta_content : option Py.value }.
Record StreamChoice := { delta : option Delta }.
Record Chunk := { chunk_choices : option (list StreamChoice) }.

(** The iterable returned by [create(..., stream=True)]: the chunks it
    delivers and, possibly, the exception it raises after them. *)
Record StreamResponse := { chunks : list Chunk; failure : option Py.exn }.

(** [client.chat.completions.create] of a deterministic provider. *)
Record Provider := {
  create : string -> list Message -> Py.exn + ChatCompletion;
  create_stream : string -> list Message -> Py.exn + StreamResponse
}.

(** ** The heap and the world *)

Definition loc := nat.

Inductive obj :=
| ODict (m : Message)
| OList (elems : list loc).

(** Observable effects, in order. *)
Inductive Event :=
| EvOpenAI (api_key base_url : string)
| EvCreate (model : string) (messages : list Message) (stream : bool)
| EvPrint (s : string)
| EvPrintResponse (r : ChatCompletion)
| EvMarkdown (s : string).

Record World := { heap : list obj; trace : list Event }.

(** Computations: a result and a new world, or no result because the heap
    is ill-formed (a dangling or ill-typed reference, which Python rules
    out), or because a loop ran out of fuel. *)
Inductive res (A : Type) :=
| Ok (a : A)
| Stuck
| OutOfFuel.
Arguments Ok {A} a.
Arguments Stuck {A}.
Arguments OutOfFuel {A}.

Definition M (A : Type) : Type := World -> res (A * World).

Definition ret {A} (a : A) : M A := fun w => Ok (a, w).

Definition bind {A B} (c : M A) (k : A -> M B) : M B :=
  fun w =>
    match c w with
    | Ok (a, w') => k a w'
    | Stuck => Stuck
    | OutOfFuel => OutOfFuel
    end.

Notation "x <- c ;; k" := (bind c (fun x => k))
  (at level 100, c at next level, k at level 200, right associativity).
Notation "c ;; k" := (bind c (fun _ => k))
  (at level 100, k at level 200, right associativity).

Definition stuck {A} : M A := fun _ => Stuck.
Definition out_of_fuel {A} : M A := fun _ => OutOfFuel.

Definition emit (e : Event) : M unit :=
  fun w => Ok (tt, {| heap := heap w; trace := trace w ++ [e] |}).

(** Object creation: the new object gets the next free address. *)
Definition alloc (o : obj) : M loc :=
  fun w => Ok (length (heap w), {| heap := heap w ++ [o]; trace := trace w |}).

Definition read_dict (h : list obj) (d : loc) : option Message :=
  match h !! d with
  | Some (ODict m) => Some m
  | _ => None
  end.

Definition read_list (h : list obj) (l : loc) : option (list loc) :=
  match h !! l with
  | Some (OList es) => Some es
  | _ => None
  end.

(** The messages a list object holds, as they are serialised in a request. *)
Definition read_messages (h : list obj) (l : loc) : option (list Message) :=
  match read_list h l with
  | Some es => mapM (read_dict h) es
  | None => None
  end.

Definition lift_read {A} (f : list obj -> option A) : M A :=
  fun w =>
    match f (heap w) with
    | Some a => Ok (a, w)
    | None => Stuck
    end.

Definition get_dict (d : loc) : M Message := lift_read (fun h => read_dict h d).
Definition get_list (l : loc) : M (list loc) := lift_read (fun h => read_list h l).
Definition get_messages (l : loc) : M (list Message) :=
  lift_read (fun h => read_messages h l).

(** In-place replacement of the elements of list object [l]. *)
Definition put_list (l : loc) (es : list loc) : M unit :=
  fun w =>
    match read_list (heap w) l with
    | Some _ => Ok (tt, {| heap := <[l := OList es]> (heap w); trace := trace w |})
    | None => Stuck
    end.

(** [l.append(x)] *)
Definition list_append (l x : loc) : M unit :=
  es <- get_list l ;; put_list l (es ++ [x]).

(** [l.extend(l2)] *)
Definition list_extend (l l2 : loc) : M unit :=
  es <- get_list l ;; es2 <- get_list l2 ;; put_list l (es ++ es2).

(** [l.copy()]: a new list object holding the same references. *)
Definition list_copy (l : loc) : M loc :=
  es <- get_list l ;; alloc (OList es).

(** [l[i] = x]. Python raises [IndexError] out of range; the program only
    assigns at an index it has just enumerated in the same list, and the
    model gives no result elsewhere. *)
Definition list_setitem (l : loc) (i : nat) (x : loc) : M unit :=
  es <- get_list l ;;
  if decide (i < length es) then put_list l (<[i := x]> es) else stuck.

(** Iterating a generator object to exhaustion, as a [for] loop or
    [list(g)] does: the fragments yielded, in order, and how the iteration
    ended ([StopIteration v] or an exception). [next] is the generator's
    resumption function. *)
Fixpoint iterate {G : Type} (next : G -> M (Py.next_result * G))
    (fuel : nat) (g : G) (yielded : list string) : M (list string * Py.next_result) :=
  match fuel with
  | 0 => out_of_fuel
  | S fuel' =>
      step <- next g ;;
      match fst step with
      | Yield s => iterate next fuel' (snd step) (yielded ++ [s])
      | r => ret (yielded, r)
      end
  end.

(** ** PerplexityClient *)

Module PerplexityClient.

Definition DEFAULT_BASE_URL : string := "https://api.perplexity.ai".
Definition DEFAULT_MODEL : string := "sonar".
Definition DEFAULT_SYSTEM_PROMPT : string := "Be precise and concise.".

Definition KEY_MISSING : string :=
  "Perplexity API key not provided or found in environment variables (PERPLEXITY_API_KEY).".

Record t := {
  api_key : string;
  base_url : string;
  default_model : string;
  client : Provider
}.

(** [os.environ.get(name)] *)
Definition environ_get (environ : gmap string string) (name : string) : Py.value :=
  match environ !! name with
  | Some s => PyStr s
  | None => PyNone
  end.

(** [__init__]. [OpenAI] is the constructor of the underlying handle. *)
Definition __init__ (environ : gmap string string)
    (OpenAI : string -> string -> Py.exn + Provider)
    (api_key base_url default_model : Py.value) : M (Py.exn + t) :=
  let self_api_key := Py.or_ api_key (environ_get environ "PERPLEXITY_API_KEY") in
  if negb (Py.truthy self_api_key) then
    ret (inl (Exn ValueError KEY_MISSING))
  else
    let self_api_key := Py.str self_api_key in
    let self_base_url := Py.or_str base_url DEFAULT_BASE_URL in
    let self_default_model := Py.or_str default_model DEFAULT_MODEL in
    emit (EvOpenAI self_api_key self_base_url) ;;
    match OpenAI self_api_key self_base_url with
    | inl e =>
        emit (EvPrint ("Error initializing OpenAI client for Perplexity: " +:+ exn_str e)) ;;
        ret (inl e)
    | inr handle =>
        ret (inr {| api_key := self_api_key; base_url := self_base_url;
                    default_model := self_default_model; client := handle |})
    end.

(** The suspended frame of the generator function [chat]. *)
Inductive frame :=
| Created (self : t) (message model system_prompt : Py.value)
          (messages : option loc) (stream : bool)
| AtYield (rest : list Chunk) (failure : option Py.exn)
| Finished.

(** The body of [chat] contains a [yield] (line 106), so [chat] is a
    generator function: calling it runs none of the body and returns a
    generator object whose frame holds the arguments. *)
Definition chat (self : t) (message model system_prompt : Py.value)
    (messages : option loc) (stream : bool) : M (Py.call_result frame) :=
  ret (RetGenerator (Created self message model system_prompt messages stream)).

(** The two [except] clauses: log, then re-raise. *)
Definition on_exception (e : Py.exn) : M (Py.next_result * frame) :=
  (if Py.is_OpenAIError e
   then emit (EvPrint ("Perplexity API Error: " +:+ exn_str e))
   else emit (EvPrint ("An unexpected error occurred: " +:+ exn_str e))) ;;
  ret (Raise e, Finished).

(** The content a chunk delivers, by the tests of lines 99-105. *)
Definition chunk_yield (chunk : Chunk) : option string :=
  match chunk_choices chunk with
  | Some (c0 :: _) =>
      match delta c0 with
      | Some d =>
          let content := default PyNone (delta_content d) in
          if Py.truthy content then Some (Py.str content) else None
      | None => None
      end
  | _ => None
  end.

(** [for chunk in response: ...], run up to the next [yield]. *)
Fixpoint stream_loop (rest : list Chunk) (failure : option Py.exn)
    : M (Py.next_result * frame) :=
  match rest with
  | [] =>
      match failure with
      | Some e => on_exception e
      | None => ret (StopIteration PyNone, Finished)
      end
  | chunk :: rest' =>
      match chunk_yield chunk with
      | Some content => ret (Yield content, AtYield rest' failure)
      | None => stream_loop rest' failure
      end
  end.

(** The body of [chat] from its first line to the first suspension.
    [body] is the conversation as [create] serialises it. *)
Definition start (self : t) (message model system_prompt : Py.value)
    (messages : option loc) (stream : bool) : M (Py.next_result * frame) :=
  let selected_model := Py.or_str model (default_model self) in
  let current_system_prompt := Py.or_str system_prompt DEFAULT_SYSTEM_PROMPT in
  chat_messages <-
    match messages with
    | Some ms => ret ms
    | None =>
        m0 <- alloc (ODict {| role := "system"; content := PyStr current_system_prompt |}) ;;
        m1 <- alloc (ODict {| role := "user"; content := message |}) ;;
        alloc (OList [m0; m1])
    end ;;
  body <- get_messages chat_messages ;;
  if stream then
    emit (EvCreate selected_model body true) ;;
    match create_stream (client self) selected_model body with
    | inl e => on_exception e
    | inr response => stream_loop (chunks response) (failure response)
    end
  else
    emit (EvCreate selected_model body false) ;;
    match create (client self) selected_model body with
    | inl e => on_exception e
    | inr response =>
        emit (EvPrintResponse response) ;;
        match choices response with
        | c0 :: _ => ret (StopIteration (message_content c0), Finished)
        | [] => on_exception (Exn IndexError "list index out of range")
        end
    end.

(** [next(g)] on the generator object of [chat]. *)
Definition next (g : frame) : M (Py.next_result * frame) :=
  match g with
  | Created self message model system_prompt messages stream =>
      start self message model system_prompt messages stream
  | AtYield rest failure => stream_loop rest failure
  | Finished => ret (StopIteration PyNone, Finished)
  end.

End PerplexityClient.

(** ** app.py: the stream consumer and the chat turn *)

Module App.

Definition AVAILABLE_MODELS : list string :=
  ["sonar-pro"; "sonar"; "sonar-deep-research"; "r1-1776"].

(** The entries of [st.session_state]; [messages] refers to the stored
    list object. *)
Record SessionState := {
  messages : loc;
  pdf_content : string;
  system_prompt : string;
  model : string
}.

(** The suspended frame of the generator [stream_perplexity_response]. *)
Inductive frame :=
| Created (client : PerplexityClient.t) (messages : loc) (model : string) (stream : bool)
| AtYieldChunk (inner : PerplexityClient.frame)
| AtYieldError
| Finished.

Definition stream_perplexity_response (client : PerplexityClient.t)
    (messages : loc) (model : string) (stream : bool) : M (Py.call_result frame) :=
  ret (RetGenerator (Created client messages model stream)).

(** One round of [for chunk in <inner>: yield chunk] under the [try]. *)
Definition resume (inner : PerplexityClient.frame) : M (Py.next_result * frame) :=
  step <- PerplexityClient.next inner ;;
  match fst step with
  | Yield chunk => ret (Yield chunk, AtYieldChunk (snd step))
  | StopIteration _ => ret (StopIteration PyNone, Finished)
  | Raise e => ret (Yield ("[Error: " +:+ exn_str e +:+ "]"), AtYieldError)
  end.

(** [next(g)] on the generator object of [stream_perplexity_response].
    The first resumption calls [client.chat(message=None, messages=...,
    model=..., stream=...)] and iterates what it returns, which is always a
    generator object. *)
Definition next (g : frame) : M (Py.next_result * frame) :=
  match g with
  | Created client messages model stream =>
      it <- PerplexityClient.chat client PyNone (PyStr model) PyNone (Some messages) stream ;;
      match it with
      | RetGenerator inner => resume inner
      | RetValue _ => stuck
      end
  | AtYieldChunk inner => resume inner
  | AtYieldError => ret (StopIteration PyNone, Finished)
  | Finished => ret (StopIteration PyNone, Finished)
  end.

(** Lines 107-113: rewrite the first user message of [chat_history]. *)
Fixpoint prepend_context (pdf : string) (chat_history : loc) (i : nat)
    (remaining : list loc) : M unit :=
  match remaining with
  | [] => ret tt
  | m :: remaining' =>
      msg <- get_dict m ;;
      if String.eqb (role msg) "user" then
        d <- alloc (ODict {| role := "user";
                             content := PyStr ("Context from PDF:" +:+ nl +:+ pdf +:+ nl +:+ nl
                                               +:+ Py.str (content msg)) |}) ;;
        list_setitem chat_history i d
      else prepend_context pdf chat_history (S i) remaining'
  end.

(** Lines 116-121: accumulate the fragments into [response_text]. *)
Fixpoint consume (fuel : nat) (g : frame) (response_text : string)
    : M (Py.exn + string) :=
  match fuel with
  | 0 => out_of_fuel
  | S fuel' =>
      step <- next g ;;
      match fst step with
      | Yield chunk =>
          let response_text := response_text +:+ chunk in
          emit (EvMarkdown response_text) ;;
          consume fuel' (snd step) response_text
      | StopIteration _ => ret (inr response_text)
      | Raise e => ret (inl e)
      end
  end.

(** Lines 101-114: the outgoing message list for the request. *)
Definition build_messages (ss : SessionState) : M loc :=
  s <- alloc (ODict {| role := "system"; content := PyStr (system_prompt ss) |}) ;;
  msgs <- alloc (OList [s]) ;;
  chat_history <- list_copy (messages ss) ;;
  es <- get_list chat_history ;;
  (if negb (String.eqb (pdf_content ss) "") && negb (Nat.eqb (length es) 0)
   then prepend_context (pdf_content ss) chat_history 0 es
   else ret tt) ;;
  list_extend msgs chat_history ;;
  ret msgs.

(** Lines 96-124: the handler of one submitted prompt; [prompt] is what
    [st.chat_input] returned. The result is the exception that ends the
    script run, if any. *)
Definition chat_turn (fuel : nat) (environ : gmap string string)
    (OpenAI : string -> string -> Py.exn + Provider)
    (ss : SessionState) (prompt : Py.value) : M (option Py.exn) :=
  if Py.truthy prompt then
    u <- alloc (ODict {| role := "user"; content := prompt |}) ;;
    list_append (messages ss) u ;;
    made <- PerplexityClient.__init__ environ OpenAI PyNone PyNone PyNone ;;
    match made with
    | inl e => ret (Some e)
    | inr client =>
        msgs <- build_messages ss ;;
        it <- stream_perplexity_response client msgs (model ss) true ;;
        match it with
        | RetValue _ => stuck
        | RetGenerator g =>
            r <- consume fuel g "" ;;
            match r with
            | inl e => ret (Some e)
            | inr response_text =>
                a <- alloc (ODict {| role := "assistant"; content := PyStr response_text |}) ;;
                list_append (messages ss) a ;;
                ret None
            end
        end
    end
  else ret None.

End App.

(** * Vocabulary of the statements *)

(** ** The client wrapper: what a request contains and how a stream ends *)

Section ClientVocabulary.

Import PerplexityClient.

(** The line the two [except] clauses print for [e]. *)
Definition log_line (e : Py.exn) : string :=
  match exn_cls e with
  | OpenAIError => "Perplexity API Error: " +:+ exn_str e
  | _ => "An unexpected error occurred: " +:+ exn_str e
  end.

Definition log_exception (e : Py.exn) (w : World) : World :=
  {| heap := heap w; trace := trace w ++ [EvPrint (log_line e)] |}.

(** How iterating a stream ends, and the world it leaves. *)
Definition stream_end (failure : option Py.exn) : Py.next_result :=
  match failure with
  | Some e => Raise e
  | None => StopIteration PyNone
  end.

Definition stream_end_world (failure : option Py.exn) (w : World) : World :=
  match failure with
  | Some e => log_exception e w
  | None => w
  end.

(** The fragments a list of chunks gives rise to. *)
Definition fragments (cs : list Chunk) : list string := omap chunk_yield cs.

(** The pair of messages synthesised when [messages] is [None]. *)
Definition synthesized (system_prompt message : Py.value) : list Message :=
  [ {| role := "system"; content := PyStr (Py.or_str system_prompt DEFAULT_SYSTEM_PROMPT) |};
    {| role := "user"; content := message |} ].

(** The conversation a call sends, read in heap [h]. *)
Definition request_body (h : list obj) (system_prompt message : Py.value)
    (messages : option loc) : option (list Message) :=
  match messages with
  | Some l => read_messages h l
  | None => Some (synthesized system_prompt message)
  end.

(** The heap once the conversation to send exists. *)
Definition request_heap (h : list obj) (system_prompt message : Py.value)
    (messages : option loc) : list obj :=
  match messages with
  | Some _ => h
  | None =>
      let h1 := (h ++ [ODict {| role := "system";
                               content := PyStr (Py.or_str system_prompt DEFAULT_SYSTEM_PROMPT) |}]) in
      let h2 := (h1 ++ [ODict {| role := "user"; content := message |}]) in
      (h2 ++ [OList [length h; length h1]])
  end.

(** The world in which the provider is called. *)
Definition request_world (w : World) (self : t) (message model system_prompt : Py.value)
    (messages : option loc) (stream : bool) (body : list Message) : World :=
  {| heap := request_heap (heap w) system_prompt message messages;
     trace := trace w ++ [EvCreate (Py.or_str model (default_model self)) body stream] |}.

(** What the body of [chat] does with the provider's answer. *)
Definition after_create (self : t) (model : Py.value) (stream : bool)
    (body : list Message) : M (Py.next_result * frame) :=
  let selected_model := Py.or_str model (default_model self) in
  if stream then
    match create_stream (client self) selected_model body with
    | inl e => on_exception e
    | inr response => stream_loop (chunks response) (failure response)
    end
  else
    match create (client self) selected_model body with
    | inl e => on_exception e
    | inr response =>
        emit (EvPrintResponse response) ;;
        match choices response with
        | c0 :: _ => ret (StopIteration (message_content c0), Finished)
        | [] => on_exception (Exn IndexError "list index out of range")
        end
    end.

End ClientVocabulary.

(** ** Strings, events and heaps that only grow *)

(** Concatenation of fragments in order. *)
Definition join (fs : list string) : string := foldr String.append "" fs.

Definition add_events (w : World) (evs : list Event) : World :=
  {| heap := heap w; trace := trace w ++ evs |}.

(** [h'] has every dict of [h], unchanged, and every list of [h] that
    [keep] selects, unchanged. *)
Definition preserved (keep : loc -> Prop) (h h' : list obj) : Prop :=
  (forall d m, read_dict h d = Some m -> read_dict h' d = Some m) /\
  (forall l es, keep l -> read_list h l = Some es -> read_list h' l = Some es).

(** ** The orchestrator: the outgoing conversation *)

(** The message that replaces [m] when the document text [pdf] is put in
    front of its content. *)
Definition with_context (pdf : string) (m : Message) : Message :=
  {| role := "user";
     content := PyStr ("Context from PDF:" +:+ nl +:+ pdf +:+ nl +:+ nl +:+ Py.str (content m)) |}.

(** The conversation with its first user message replaced. *)
Fixpoint rewrite_first_user (pdf : string) (ms : list Message) : list Message :=
  match ms with
  | [] => []
  | m :: ms' =>
      if String.eqb (role m) "user" then with_context pdf m :: ms'
      else m :: rewrite_first_user pdf ms'
  end.

(** The conversation sent for stored history [hist] and document [pdf]. *)
Definition outgoing (pdf : string) (hist : list Message) : list Message :=
  if String.eqb pdf "" then hist else rewrite_first_user pdf hist.

(** ** The orchestrator: consuming the stream *)

Definition is_request (ev : Event) : bool :=
  match ev with
  | EvCreate _ _ _ => true
  | _ => false
  end.

(** The fragment that stands for an exception of the stream. *)
Definition error_fragment (e : Py.exn) : string := "[Error: " +:+ exn_str e +:+ "]".

(** A refused request behaves as a stream that fails at once. *)
Definition as_stream (reply : Py.exn + StreamResponse) : StreamResponse :=
  match reply with
  | inl e => {| chunks := []; failure := Some e |}
  | inr response => response
  end.

(** The fragments [stream_perplexity_response] hands to its consumer. *)
Definition received (fs : list string) (failure : option Py.exn) : list string :=
  fs ++ match failure with
        | Some e => [error_fragment e]
        | None => []
        end.

(** The events of consuming fragments [fs] of a stream that ends with
    [failure], starting from the text [text]. *)
Fixpoint stream_events (text : string) (fs : list string) (failure : option Py.exn)
    : list Event :=
  match fs with
  | [] =>
      match failure with
      | Some e => [EvPrint (log_line e); EvMarkdown (text +:+ error_fragment e)]
      | None => []
      end
  | f :: fs' => EvMarkdown (text +:+ f) :: stream_events (text +:+ f) fs' failure
  end.

(** ** The claims about the client wrapper *)

(** [v] when it is a non-empty string, else [fallback]. *)
Definition nonempty_or (v : Py.value) (fallback : string) : string :=
  match v with
  | PyStr s => if decide (s = "") then fallback else s
  | PyNone => fallback
  end.

(** [v] when it is supplied (not [None]), else [fallback]. *)
Definition supplied_or (v : Py.value) (fallback : string) : string :=
  match v with
  | PyStr s => s
  | PyNone => fallback
  end.

(** The text a chunk carries for the first choice:
    [choices[0].delta.content] when it is a string, nothing otherwise. *)
Definition delta_text (c : Chunk) : string :=
  match chunk_choices c with
  | Some (c0 :: _) =>
      match delta c0 with
      | Some d =>
          match delta_content d with
          | Some (PyStr s) => s
          | _ => ""
          end
      | None => ""
      end
  | _ => ""
  end.

(** Chunk [c] carries the content [s]: a non-empty string at
    [choices[0].delta.content]. *)
Definition carries (c : Chunk) (s : string) : Prop :=
  exists c0 rest d,
    chunk_choices c = Some (c0 :: rest) /\ delta c0 = Some d /\
    delta_content d = Some (PyStr s) /\ s <> "".

(** [fs] has one element for each chunk of [cs] that carries content,
    in order, and none for the others. *)
Inductive delivered : list Chunk -> list string -> Prop :=
| delivered_nil : delivered [] []
| delivered_skip c cs fs :
    (forall s, ~ carries c s) -> delivered cs fs -> delivered (c :: cs) fs
| delivered_yield c s cs fs :
    carries c s -> delivered cs fs -> delivered (c :: cs) (s :: fs).

(** The ways the underlying request of a call can raise [e]: refused at
    once, or broken after the chunks [cs] of a stream. *)
Inductive request_raises (p : Provider) (selected_model : string) (body : list Message)
    : bool -> Py.exn -> list Chunk -> Prop :=
| raises_buffered e :
    create p selected_model body = inl e -> request_raises p selected_model body false e []
| raises_at_once e :
    create_stream p selected_model body = inl e ->
    request_raises p selected_model body true e []
| raises_mid_stream e cs :
    create_stream p selected_model body = inr {| chunks := cs; failure := Some e |} ->
    request_raises p selected_model body true e cs.

(** C9, as stated: the request uses the [model] option whenever it is
    supplied (else [default_model]) and the [system_prompt] option
    whenever it is supplied (else "Be precise and concise."). *)
Definition effective_options_as_stated
    (self : PerplexityClient.t) (message model system_prompt : Py.value) (w : World) : Prop :=
  exists r w' evs,
    PerplexityClient.next
      (PerplexityClient.Created self message model system_prompt None false) w = Ok (r, w') /\
    trace w' = trace w ++
      EvCreate (supplied_or model (PerplexityClient.default_model self))
               [ {| role := "system";
                    content := PyStr (supplied_or system_prompt "Be precise and concise.") |};
                 {| role := "user"; content := message |} ]
               false :: evs.

(** ** Construction *)

(** The option is absent ([None]) or the empty string. *)
Definition absent_or_empty (v : Py.value) : Prop := v = PyNone \/ v = PyStr "".

(** The outcome of [__init__] once the key [key] is resolved. *)
Definition constructed_with (OpenAI : string -> string -> Py.exn + Provider)
    (key : string) (base_url default_model : Py.value) (w : World)
    : res ((Py.exn + PerplexityClient.t) * World) :=
  let url := Py.or_str base_url PerplexityClient.DEFAULT_BASE_URL in
  match OpenAI key url with
  | inr handle =>
      Ok (inr {| PerplexityClient.api_key := key;
                 PerplexityClient.base_url := url;
                 PerplexityClient.default_model :=
                   Py.or_str default_model PerplexityClient.DEFAULT_MODEL;
                 PerplexityClient.client := handle |},
          add_events w [EvOpenAI key url])
  | inl e =>
      Ok (inl e,
          add_events w [EvOpenAI key url;
                        EvPrint ("Error initializing OpenAI client for Perplexity: " +:+ exn_str e)])
  end.

(** ** Concrete providers and runs *)

Module Examples.

Definition text_chunk (s : string) : Chunk :=
  {| chunk_choices := Some [ {| delta := Some {| delta_content := Some (PyStr s) |} |} ] |}.
Definition empty_delta_chunk : Chunk :=
  {| chunk_choices := Some [ {| delta := Some {| delta_content := Some (PyStr "") |} |} ] |}.
Definition none_delta_chunk : Chunk :=
  {| chunk_choices := Some [ {| delta := Some {| delta_content := Some PyNone |} |} ] |}.
Definition no_content_chunk : Chunk :=
  {| chunk_choices := Some [ {| delta := Some {| delta_content := None |} |} ] |}.
Definition no_choices_chunk : Chunk := {| chunk_choices := Some [] |}.

Definition galaxy_chunks : list Chunk :=
  [ none_delta_chunk; text_chunk "About "; empty_delta_chunk; text_chunk "100 billion";
    no_choices_chunk; text_chunk "."; no_content_chunk ].

(** A mock that answers every request with "About 100 billion.". *)
Definition galaxy : Provider :=
  {| create := fun _ _ => inr {| choices := [ {| message_content := PyStr "About 100 billion." |} ] |};
     create_stream := fun _ _ => inr {| chunks := galaxy_chunks; failure := None |} |}.

Definition rate_limited : Py.exn := Exn OpenAIError "rate limit".
Definition timed_out : Py.exn := Exn (OtherException "TimeoutError") "timed out".

(** A mock whose stream breaks after two fragments. *)
Definition flaky : Provider :=
  {| create := fun _ _ => inl rate_limited;
     create_stream := fun _ _ =>
       inr {| chunks := [text_chunk "About "; text_chunk "100"]; failure := Some timed_out |} |}.

Definition environ_k : gmap string string := {[ "PERPLEXITY_API_KEY" := "k" ]}.

Definition client_of (p : Provider) : PerplexityClient.t :=
  {| PerplexityClient.api_key := "k";
     PerplexityClient.base_url := PerplexityClient.DEFAULT_BASE_URL;
     PerplexityClient.default_model := PerplexityClient.DEFAULT_MODEL;
     PerplexityClient.client := p |}.

Definition w0 : World := {| heap := []; trace := [] |}.

Definition question : string := "How many stars are there in our galaxy?".

(** A session whose stored conversation holds one earlier turn. *)
Definition w_history : World :=
  {| heap := [ OList [1; 2];
               ODict {| role := "user"; content := PyStr "first" |};
               ODict {| role := "assistant"; content := PyStr "answer" |} ];
     trace := [] |}.

(** A session with one stored list object, empty so far. *)
Definition w_session : World := {| heap := [OList []]; trace := [] |}.
Definition session (pdf : string) : App.SessionState :=
  {| App.messages := 0; App.pdf_content := pdf;
     App.system_prompt := "Be precise and concise."; App.model := "sonar-pro" |}.

End Examples.

(** * The rest of the two files *)

(** ** PerplexityClient.py: the example run under [__main__] *)

Module Main.

Definition user_input_1 : string := "How many stars are there in our galaxy?".

(** [str(x)] of what a call returned, as the f-string of line 133 formats
    it. [repr] gives the text of a generator object (it shows the object's
    address). *)
Definition format_result (repr : PerplexityClient.frame -> string)
    (x : Py.call_result PerplexityClient.frame) : string :=
  match x with
  | RetValue v => Py.str v
  | RetGenerator g => repr g
  end.

(** Lines 125-133: the body of the [try]. *)
Definition body (repr : PerplexityClient.frame -> string)
    (environ : gmap string string)
    (OpenAI : string -> string -> Py.exn + Provider) : M (Py.exn + unit) :=
  made <- PerplexityClient.__init__ environ OpenAI PyNone PyNone PyNone ;;
  match made with
  | inl e => ret (inl e)
  | inr perplexity_client =>
      emit (EvPrint ("Sending message (default model): '" +:+ user_input_1 +:+ "'")) ;;
      response_1 <- PerplexityClient.chat perplexity_client (PyStr user_input_1)
                      PyNone PyNone None false ;;
      emit (EvPrint ("Perplexity response: " +:+ format_result repr response_1 +:+ nl)) ;;
      ret (inr tt)
  end.

(** Lines 124-143: the [try] with its three handlers. *)
Definition main (repr : PerplexityClient.frame -> string)
    (environ : gmap string string)
    (OpenAI : string -> string -> Py.exn + Provider) : M unit :=
  r <- body repr environ OpenAI ;;
  match r with
  | inr _ => ret tt
  | inl e =>
      match exn_cls e with
      | ValueError => emit (EvPrint ("Configuration Error: " +:+ exn_str e))
      | OpenAIError => emit (EvPrint ("API Communication Error: " +:+ exn_str e))
      | _ =>
          emit (EvPrint ("An unexpected error occurred in the main execution block: "
                           +:+ exn_str e))
      end
  end.

End Main.

(** ** app.py: session state, the uploaded document *)

Module Session.

(** A value of [st.session_state]: a reference to a list object, or a
    string. *)
Inductive entry :=
| EList (l : loc)
| EStr (s : string).

(** [if key not in st.session_state: st.session_state[key] = v] *)
Definition set_if_missing (key : string) (v : entry) (state : gmap string entry)
    : gmap string entry :=
  match state !! key with
  | Some _ => state
  | None => <[key := v]> state
  end.

(** Lines 28-35: every key that is missing gets its initial value; the
    empty list of [messages] is created only when the key is missing. *)
Definition init (state : gmap string entry) : M (gmap string entry) :=
  state <-
    match state !! "messages" with
    | Some _ => ret state
    | None => l <- alloc (OList []) ;; ret (<["messages" := EList l]> state)
    end ;;
  let state := set_if_missing "pdf_content" (EStr "") state in
  let state := set_if_missing "system_prompt" (EStr "Be precise and concise.") state in
  let state := set_if_missing "model" (EStr (nth 0 App.AVAILABLE_MODELS "")) state in
  ret state.

(** The four entries the chat turn reads, when they have the types the
    script gives them. *)
Definition view (state : gmap string entry) : option App.SessionState :=
  match state !! "messages", state !! "pdf_content",
        state !! "system_prompt", state !! "model" with
  | Some (EList l), Some (EStr pdf), Some (EStr prompt), Some (EStr m) =>
      Some {| App.messages := l; App.pdf_content := pdf;
              App.system_prompt := prompt; App.model := m |}
  | _, _, _, _ => None
  end.

(** Lines 42-44: the text of the pages, in order; [pages] holds what
    [extract_text()] returns for each page. *)
Definition extract_text (pages : list Py.value) : string :=
  foldl (fun text page => text +:+ Py.or_str page "") "" pages.

(** Line 47: what the sidebar shows of the text,
    [text[:500] + ("..." if len(text) > 500 else "")]. Slicing and [len]
    count code points, so here the text is the sequence of its code
    points. *)
Definition ellipsis : list N := [46%N; 46%N; 46%N].

Definition preview (text : list N) : list N :=
  take 500 text ++ (if Nat.ltb 500 (length text) then ellipsis else []).

End Session.

(** ** Vocabulary of the further properties *)

(** The number of requests in a trace. *)
Definition requests (evs : list Event) : nat :=
  length (filter (fun ev => is_request ev = true) evs).

(** The generator of [chat] has been resumed at least once. *)
Definition started (g : PerplexityClient.frame) : bool :=
  match g with
  | PerplexityClient.Created _ _ _ _ _ _ => false
  | _ => true
  end.

(** The conversation is a sequence of turns: a user message followed by
    an assistant message, each time. *)
Fixpoint in_turns (ms : list Message) : Prop :=
  match ms with
  | [] => True
  | u :: a :: ms' => role u = "user" /\ role a = "assistant" /\ in_turns ms'
  | _ => False
  end.

(** A page that contributes text: a non-empty string. *)
Definition page_text (page : Py.value) : option string :=
  match page with
  | PyStr s => if decide (s = "") then None else Some s
  | PyNone => None
  end.

Module Scenarios.

(** A mock whose completion has no choice. *)
Definition no_choice : Provider :=
  {| create := fun _ _ => inr {| choices := [] |};
     create_stream := fun _ _ => inr {| chunks := []; failure := None |} |}.

Definition repr_generator (g : PerplexityClient.frame) : string :=
  "<generator object PerplexityClient.chat at 0x7f00>".

(** A text of 200 euro signs: 200 code points, 600 bytes in UTF-8. *)
Definition euros : list N := replicate 200 8364%N.

(** A session state left by an earlier run of the script. *)
Definition old_state : gmap string Session.entry :=
  {[ "messages" := Session.EList 0; "model" := Session.EStr "sonar" ]}.

End Scenarios.

(** * Lemmas *)

(** ** Reasoning about computations *)

Lemma bind_ok {A B} (c : M A) (k : A -> M B) w a w' :
  c w = Ok (a, w') -> bind c k w = k a w'.
Proof. intros H. unfold bind. now rewrite H. Qed.

Lemma bind_ret {A B} (a : A) (k : A -> M B) w : bind (ret a) k w = k a w.
Proof. reflexivity. Qed.

Lemma bind_emit {B} (e : Event) (k : unit -> M B) w :
  bind (emit e) k w = k tt {| heap := heap w; trace := trace w ++ [e] |}.
Proof. reflexivity. Qed.

Lemma bind_alloc {B} (o : obj) (k : loc -> M B) w :
  bind (alloc o) k w = k (length (heap w)) {| heap := heap w ++ [o]; trace := trace w |}.
Proof. reflexivity. Qed.

Lemma bind_lift_read {A B} (f : list obj -> option A) (k : A -> M B) w a :
  f (heap w) = Some a -> bind (lift_read f) k w = k a w.
Proof. intros H. unfold bind, lift_read. now rewrite H. Qed.

(** ** Frame lemmas for the heap *)

Lemma read_dict_app h h' d m :
  read_dict h d = Some m -> read_dict (h ++ h') d = Some m.
Proof.
  unfold read_dict. destruct (h !! d) as [o|] eqn:E; [|discriminate].
  intros H. now rewrite (lookup_app_l_Some _ _ _ _ E).
Qed.

Lemma read_list_app h h' l es :
  read_list h l = Some es -> read_list (h ++ h') l = Some es.
Proof.
  unfold read_list. destruct (h !! l) as [o|] eqn:E; [|discriminate].
  intros H. now rewrite (lookup_app_l_Some _ _ _ _ E).
Qed.

Lemma read_dict_new h m : read_dict (h ++ [ODict m]) (length h) = Some m.
Proof. unfold read_dict. now rewrite list_lookup_middle. Qed.

Lemma read_list_new h es : read_list (h ++ [OList es]) (length h) = Some es.
Proof. unfold read_list. now rewrite list_lookup_middle. Qed.

Lemma mapM_read_dict_app h h' es ms :
  mapM (read_dict h) es = Some ms -> mapM (read_dict (h ++ h')) es = Some ms.
Proof.
  rewrite !mapM_Some. intros H.
  eapply Forall2_impl; [exact H|]. intros d m Hd. now apply read_dict_app.
Qed.

Lemma read_messages_app h h' l ms :
  read_messages h l = Some ms -> read_messages (h ++ h') l = Some ms.
Proof.
  unfold read_messages. destruct (read_list h l) as [es|] eqn:E; [|discriminate].
  rewrite (read_list_app _ h' _ _ E). apply mapM_read_dict_app.
Qed.

(** Replacing the elements of a list object leaves every dict as it is. *)
Lemma read_dict_put_list h l es es' d :
  read_list h l = Some es -> read_dict (<[l := OList es']> h) d = read_dict h d.
Proof.
  unfold read_list, read_dict. intros H.
  destruct (decide (l = d)) as [->|Hne].
  - destruct (h !! d) as [[m|es0]|] eqn:E; try discriminate.
    rewrite list_lookup_insert_eq; [reflexivity|]. now apply lookup_lt_Some in E.
  - now rewrite list_lookup_insert_ne.
Qed.

Lemma read_list_put_same h l es es' :
  read_list h l = Some es -> read_list (<[l := OList es']> h) l = Some es'.
Proof.
  unfold read_list. intros H.
  destruct (h !! l) as [o|] eqn:E; [|discriminate].
  rewrite list_lookup_insert_eq; [reflexivity|]. now apply lookup_lt_Some in E.
Qed.

Lemma read_list_put_other h l l' es' :
  l <> l' -> read_list (<[l := OList es']> h) l' = read_list h l'.
Proof. intros H. unfold read_list. now rewrite list_lookup_insert_ne. Qed.

Lemma mapM_read_dict_put_list h l es es' ds :
  read_list h l = Some es ->
  mapM (read_dict (<[l := OList es']> h)) ds = mapM (read_dict h) ds.
Proof.
  intros H. apply mapM_ext. intros d. now apply read_dict_put_list with (es := es).
Qed.

Lemma read_messages_put_other h l l' es es' :
  read_list h l = Some es -> l <> l' ->
  read_messages (<[l := OList es']> h) l' = read_messages h l'.
Proof.
  intros H Hne. unfold read_messages. rewrite read_list_put_other by assumption.
  destruct (read_list h l'); [|reflexivity]. now apply mapM_read_dict_put_list with (es := es).
Qed.

Lemma read_messages_put_same h l es es' :
  read_list h l = Some es ->
  read_messages (<[l := OList es']> h) l = mapM (read_dict h) es'.
Proof.
  intros H. unfold read_messages. rewrite (read_list_put_same _ _ _ _ H).
  now apply mapM_read_dict_put_list with (es := es).
Qed.

Lemma read_messages_inv h l ms :
  read_messages h l = Some ms ->
  exists es, read_list h l = Some es /\ mapM (read_dict h) es = Some ms.
Proof.
  unfold read_messages. destruct (read_list h l) as [es|]; [|discriminate]. eauto.
Qed.

Lemma mapM_app_Some {A B} (f : A -> option B) (l1 l2 : list A) (k1 k2 : list B) :
  mapM f l1 = Some k1 -> mapM f l2 = Some k2 -> mapM f (l1 ++ l2) = Some (k1 ++ k2).
Proof. rewrite !mapM_Some. apply Forall2_app. Qed.

Lemma read_list_lt h l es : read_list h l = Some es -> l < length h.
Proof.
  unfold read_list. destruct (h !! l) eqn:E; [|discriminate].
  intros _. now apply lookup_lt_Some in E.
Qed.

Section ClientFacts.

Import PerplexityClient.

(** ** The client wrapper: what a request contains and how a stream ends *)

Lemma on_exception_eq e w :
  on_exception e w = Ok ((Raise e, Finished), log_exception e w).
Proof.
  unfold on_exception, log_exception, log_line, Py.is_OpenAIError.
  destruct (exn_cls e); reflexivity.
Qed.

Lemma synthesized_readable h system_prompt message :
  read_messages (request_heap h system_prompt message None)
                (length ((h ++ [ODict {| role := "system";
                                         content := PyStr (Py.or_str system_prompt DEFAULT_SYSTEM_PROMPT) |}])
                            ++ [ODict {| role := "user"; content := message |}]))
    = Some (synthesized system_prompt message).
Proof.
  unfold read_messages, request_heap. cbv zeta.
  rewrite read_list_new. cbn [mapM].
  rewrite (read_dict_app _ _ _ _ (read_dict_app _ _ _ _ (read_dict_new h _))).
  rewrite (read_dict_app _ _ _ _ (read_dict_new _ _)).
  reflexivity.
Qed.

(** The first resumption: the conversation is fixed, the request is
    issued, and the provider's answer is handled. *)
Lemma start_eq self message model system_prompt messages stream w body :
  request_body (heap w) system_prompt message messages = Some body ->
  start self message model system_prompt messages stream w
    = after_create self model stream body
        (request_world w self message model system_prompt messages stream body).
Proof.
  intros Hbody. unfold start, after_create, request_world.
  destruct messages as [l|]; cbn [request_body request_heap] in *.
  - rewrite bind_ret.
    unfold get_messages. rewrite (bind_lift_read _ _ _ _ Hbody).
    destruct stream; reflexivity.
  - injection Hbody as <-.
    rewrite !bind_ok with (a := length (((heap w ++ [ODict {| role := "system";
                                         content := PyStr (Py.or_str system_prompt DEFAULT_SYSTEM_PROMPT) |}])
                            ++ [ODict {| role := "user"; content := message |}])))
      (w' := {| heap := request_heap (heap w) system_prompt message None; trace := trace w |})
      by reflexivity.
    unfold get_messages.
    rewrite bind_lift_read with (a := synthesized system_prompt message)
      by apply synthesized_readable.
    destruct stream; reflexivity.
Qed.

Lemma fragments_cons c cs :
  fragments (c :: cs) =
    match chunk_yield c with
    | Some s => s :: fragments cs
    | None => fragments cs
    end.
Proof. reflexivity. Qed.

Lemma stream_loop_skip c cs fail :
  chunk_yield c = None -> stream_loop (c :: cs) fail = stream_loop cs fail.
Proof. intros H. cbn [stream_loop]. now rewrite H. Qed.

(** Iterating from a suspension inside the loop delivers the fragments
    of the remaining chunks and ends as the stream ends. *)
Lemma iterate_stream cs : forall fuel fail acc w,
  length cs < fuel ->
  iterate next fuel (AtYield cs fail) acc w
    = Ok ((acc ++ fragments cs, stream_end fail), stream_end_world fail w).
Proof.
  induction cs as [|c cs IH]; intros fuel fail acc w Hfuel;
    (destruct fuel as [|fuel]; [lia|]).
  - cbn [iterate next stream_loop]. change (fragments []) with (@nil string).
    rewrite app_nil_r.
    destruct fail as [e|]; [|reflexivity].
    unfold bind. rewrite on_exception_eq. reflexivity.
  - cbn [length] in Hfuel.
    destruct (chunk_yield c) as [s|] eqn:Hc.
    + cbn [iterate next stream_loop]. rewrite Hc. rewrite bind_ret. cbn [fst snd].
      rewrite IH by lia. rewrite fragments_cons, Hc.
      now rewrite <- app_assoc.
    + specialize (IH (S fuel) fail acc w ltac:(lia)).
      cbn [iterate next] in IH |- *. rewrite stream_loop_skip by assumption.
      rewrite IH. now rewrite fragments_cons, Hc.
Qed.

Section ClientIteration.

Lemma iterate_congr {G} (nx : G -> M (Py.next_result * G)) fuel g g' acc w w' :
  nx g w = nx g' w' ->
  iterate nx (S fuel) g acc w = iterate nx (S fuel) g' acc w'.
Proof. intros H. cbn [iterate]. unfold bind. now rewrite H. Qed.

Lemma iterate_last {G} (nx : G -> M (Py.next_result * G)) fuel g g' acc w w' r :
  nx g w = Ok ((r, g'), w') -> (forall s, r <> Yield s) ->
  iterate nx (S fuel) g acc w = Ok ((acc, r), w').
Proof.
  intros H Hr. cbn [iterate]. unfold bind. rewrite H. cbn [fst snd].
  destruct r; try reflexivity. now destruct (Hr s).
Qed.

Variables (self : t) (message model system_prompt : Py.value) (messages : option loc).
Variables (w : World) (body : list Message).
Hypothesis Hbody : request_body (heap w) system_prompt message messages = Some body.

(** A streaming call whose request is accepted. *)
Lemma iterate_chat_stream response fuel (acc : list string) :
  create_stream (client self) (Py.or_str model (default_model self)) body = inr response ->
  length (chunks response) < fuel ->
  iterate next fuel (Created self message model system_prompt messages true) acc w
    = Ok ((acc ++ fragments (chunks response), stream_end (failure response)),
          stream_end_world (failure response)
            (request_world w self message model system_prompt messages true body)).
Proof.
  intros Hcreate Hfuel. destruct fuel as [|fuel]; [lia|].
  rewrite <- (iterate_stream (chunks response) (S fuel)) by lia.
  apply iterate_congr. cbn [next]. rewrite (start_eq _ _ _ _ _ _ _ _ Hbody).
  unfold after_create. cbv zeta. now rewrite Hcreate.
Qed.

(** A call whose request the provider refuses. *)
Lemma iterate_chat_refused (stream : bool) (e : Py.exn) fuel (acc : list string) :
  (if stream then create_stream (client self) (Py.or_str model (default_model self)) body = inl e
   else create (client self) (Py.or_str model (default_model self)) body = inl e) ->
  0 < fuel ->
  iterate next fuel (Created self message model system_prompt messages stream) acc w
    = Ok ((acc, Raise e),
          log_exception e (request_world w self message model system_prompt messages stream body)).
Proof.
  intros Hcreate Hfuel. destruct fuel as [|fuel]; [lia|].
  apply iterate_last with (g' := Finished); [|discriminate].
  cbn [next]. rewrite (start_eq _ _ _ _ _ _ _ _ Hbody).
  unfold after_create. cbv zeta.
  destruct stream; rewrite Hcreate; apply on_exception_eq.
Qed.

(** A buffered call whose request is answered. *)
Lemma iterate_chat_buffered response c0 rest fuel (acc : list string) :
  create (client self) (Py.or_str model (default_model self)) body = inr response ->
  choices response = c0 :: rest ->
  0 < fuel ->
  iterate next fuel (Created self message model system_prompt messages false) acc w
    = Ok ((acc, StopIteration (message_content c0)),
          {| heap := request_heap (heap w) system_prompt message messages;
             trace := (trace w ++ [EvCreate (Py.or_str model (default_model self)) body false])
                        ++ [EvPrintResponse response] |}).
Proof.
  intros Hcreate Hchoices Hfuel. destruct fuel as [|fuel]; [lia|].
  apply iterate_last with (g' := Finished); [|discriminate].
  cbn [next]. rewrite (start_eq _ _ _ _ _ _ _ _ Hbody).
  unfold after_create. cbv zeta. rewrite Hcreate.
  rewrite bind_emit. now rewrite Hchoices.
Qed.

End ClientIteration.

(** A buffered resumption never suspends at a [yield]. *)
Lemma start_buffered_no_yield self message model system_prompt messages w r g w' :
  PerplexityClient.start self message model system_prompt messages false w = Ok ((r, g), w') ->
  forall s, r <> Yield s.
Proof.
  intros H s ->.
  destruct (request_body (heap w) system_prompt message messages) as [body|] eqn:Hbody.
  - rewrite (start_eq _ _ _ _ _ _ _ _ Hbody) in H. unfold after_create in H.
    destruct (create _ _ _) as [e|response].
    + rewrite on_exception_eq in H. discriminate.
    + rewrite bind_emit in H. destruct (choices response).
      * rewrite on_exception_eq in H. discriminate.
      * discriminate.
  - destruct messages as [l|]; [|discriminate]. cbn [request_body] in Hbody.
    unfold PerplexityClient.start in H. rewrite bind_ret in H.
    unfold get_messages, bind, lift_read in H. now rewrite Hbody in H.
Qed.

End ClientFacts.

(** ** Strings *)

Lemma append_cons (a : ascii) (s t : string) : String a s +:+ t = String a (s +:+ t).
Proof. reflexivity. Qed.

Lemma append_nil_r (s : string) : s +:+ "" = s.
Proof. induction s as [|a s IH]; [reflexivity|]. now rewrite append_cons, IH. Qed.

Lemma append_assoc (s1 s2 s3 : string) : (s1 +:+ s2) +:+ s3 = s1 +:+ (s2 +:+ s3).
Proof. induction s1 as [|a s1 IH]; [reflexivity|]. now rewrite !append_cons, IH. Qed.

Lemma foldl_append_join (fs : list string) (text : string) :
  foldl String.append text fs = text +:+ join fs.
Proof.
  revert text. induction fs as [|f fs IH]; intros text; cbn.
  - now rewrite append_nil_r.
  - rewrite IH. apply append_assoc.
Qed.

Lemma join_app (fs gs : list string) : join (fs ++ gs) = join fs +:+ join gs.
Proof.
  induction fs as [|f fs IH]; cbn; [reflexivity|].
  fold (join (fs ++ gs)) (join fs). rewrite IH. symmetry. apply append_assoc.
Qed.

(** ** Heaps that only grow *)

Lemma add_events_nil w : add_events w [] = w.
Proof. destruct w as [h t]. unfold add_events. cbn. now rewrite app_nil_r. Qed.

Lemma add_events_app w evs evs' :
  add_events (add_events w evs) evs' = add_events w (evs ++ evs').
Proof. unfold add_events. cbn. now rewrite app_assoc. Qed.

Lemma preserved_refl keep h : preserved keep h h.
Proof. split; auto. Qed.

Lemma preserved_trans (keep1 keep2 keep : loc -> Prop) h1 h2 h3 :
  preserved keep1 h1 h2 -> preserved keep2 h2 h3 ->
  (forall l, keep l -> keep1 l /\ keep2 l) ->
  preserved keep h1 h3.
Proof.
  intros [Hd1 Hl1] [Hd2 Hl2] Hk. split.
  - auto.
  - intros l es Hl Hr. destruct (Hk l Hl). auto.
Qed.

Lemma preserved_app keep h h' : preserved keep h (h ++ h').
Proof.
  split.
  - intros d m. apply read_dict_app.
  - intros l es _. apply read_list_app.
Qed.

Lemma preserved_put_list h l es es' :
  read_list h l = Some es -> preserved (fun l' => l' <> l) h (<[l := OList es']> h).
Proof.
  intros H. split.
  - intros d m Hd. now rewrite (read_dict_put_list _ _ _ _ _ H).
  - intros l' es0 Hne Hl. rewrite read_list_put_other; auto.
Qed.

Lemma preserved_mapM keep h h' es ms :
  preserved keep h h' -> mapM (read_dict h) es = Some ms -> mapM (read_dict h') es = Some ms.
Proof.
  intros [Hd _]. rewrite !mapM_Some. intros H.
  eapply Forall2_impl; [exact H|]. auto.
Qed.

Lemma preserved_messages (keep : loc -> Prop) h h' l ms :
  preserved keep h h' -> keep l ->
  read_messages h l = Some ms -> read_messages h' l = Some ms.
Proof.
  intros Hp Hk Hr. apply read_messages_inv in Hr as (es & Hl & Hm).
  unfold read_messages. rewrite (proj2 Hp l es Hk Hl).
  now apply preserved_mapM with (keep := keep) (h := h).
Qed.

(** ** The list primitives on readable lists *)

Lemma list_append_ok l x w es :
  read_list (heap w) l = Some es ->
  list_append l x w = Ok (tt, {| heap := <[l := OList (es ++ [x])]> (heap w); trace := trace w |}).
Proof.
  intros H. unfold list_append, get_list. rewrite (bind_lift_read _ _ _ _ H).
  unfold put_list. now rewrite H.
Qed.

Lemma list_copy_ok l w es :
  read_list (heap w) l = Some es ->
  list_copy l w = Ok (length (heap w), {| heap := heap w ++ [OList es]; trace := trace w |}).
Proof.
  intros H. unfold list_copy, get_list. now rewrite (bind_lift_read _ _ _ _ H).
Qed.

Lemma list_extend_ok l l2 w es es2 :
  read_list (heap w) l = Some es -> read_list (heap w) l2 = Some es2 ->
  list_extend l l2 w = Ok (tt, {| heap := <[l := OList (es ++ es2)]> (heap w); trace := trace w |}).
Proof.
  intros H H2. unfold list_extend, get_list.
  rewrite (bind_lift_read _ _ _ _ H), (bind_lift_read _ _ _ _ H2).
  unfold put_list. now rewrite H.
Qed.

Lemma list_setitem_ok l i x w es :
  read_list (heap w) l = Some es -> i < length es ->
  list_setitem l i x w = Ok (tt, {| heap := <[l := OList (<[i := x]> es)]> (heap w); trace := trace w |}).
Proof.
  intros H Hi. unfold list_setitem, get_list. rewrite (bind_lift_read _ _ _ _ H).
  destruct (decide (i < length es)); [|lia]. unfold put_list. now rewrite H.
Qed.

(** Creating a message dict and appending it to a list object. *)
Lemma append_message_spec l m w ms :
  read_messages (heap w) l = Some ms ->
  exists w',
    (d <- alloc (ODict m) ;; list_append l d) w = Ok (tt, w') /\
    trace w' = trace w /\
    read_messages (heap w') l = Some (ms ++ [m]) /\
    preserved (fun l' => l' <> l) (heap w) (heap w').
Proof.
  intros Hr. apply read_messages_inv in Hr as (es & Hl & Hm).
  pose proof (read_list_app _ [ODict m] _ _ Hl) as Hl1.
  eexists. split; [|split; [|split]].
  - rewrite bind_alloc. apply list_append_ok. exact Hl1.
  - reflexivity.
  - cbn [heap]. rewrite (read_messages_put_same _ _ _ _ Hl1).
    apply mapM_app_Some.
    + now apply mapM_read_dict_app.
    + cbn [mapM]. now rewrite read_dict_new.
  - cbn [heap].
    eapply preserved_trans with (keep1 := fun _ => True) (keep2 := fun l' => l' <> l).
    + apply preserved_app.
    + apply (preserved_put_list _ _ _ _ Hl1).
    + auto.
Qed.

(** ** The orchestrator: the outgoing conversation *)

Lemma prepend_context_spec pdf ch : forall remaining i before ms w,
  read_list (heap w) ch = Some (before ++ remaining) ->
  length before = i ->
  mapM (read_dict (heap w)) remaining = Some ms ->
  exists w' remaining',
    App.prepend_context pdf ch i remaining w = Ok (tt, w') /\
    trace w' = trace w /\
    preserved (fun l => l <> ch) (heap w) (heap w') /\
    read_list (heap w') ch = Some (before ++ remaining') /\
    mapM (read_dict (heap w')) remaining' = Some (rewrite_first_user pdf ms).
Proof.
  induction remaining as [|m remaining IH]; intros i before ms w Hl Hi Hm.
  - cbn in Hm. injection Hm as <-.
    exists w, []. repeat split; auto.
  - cbn [mapM] in Hm.
    destruct (read_dict (heap w) m) as [msg|] eqn:Hmsg; [|discriminate].
    destruct (mapM (read_dict (heap w)) remaining) as [ms'|] eqn:Hms'; [|discriminate].
    injection Hm as <-.
    cbn [App.prepend_context rewrite_first_user]. unfold get_dict.
    rewrite (bind_lift_read _ _ _ _ Hmsg).
    destruct (String.eqb (role msg) "user").
    + rewrite bind_alloc.
      set (new := ODict _).
      pose proof (read_list_app _ [new] _ _ Hl) as Hl1.
      assert (Hlt : i < length (before ++ m :: remaining)).
      { rewrite length_app. cbn. lia. }
      eexists _, (length (heap w) :: remaining). split; [|split; [|split; [|split]]].
      * apply list_setitem_ok; [exact Hl1|exact Hlt].
      * reflexivity.
      * cbn [heap].
        eapply preserved_trans with (keep1 := fun _ => True) (keep2 := fun l => l <> ch).
        -- apply preserved_app.
        -- apply (preserved_put_list _ _ _ _ Hl1).
        -- auto.
      * cbn [heap]. rewrite (read_list_put_same _ _ _ _ Hl1). f_equal.
        rewrite <- Hi. replace (length before) with (length before + 0) by lia.
        now rewrite insert_app_r.
      * cbn [heap]. rewrite (mapM_read_dict_put_list _ _ _ _ _ Hl1).
        cbn [mapM]. subst new. rewrite read_dict_new.
        rewrite (mapM_read_dict_app _ [_] _ _ Hms'). reflexivity.
    + destruct (IH (S i) (before ++ [m]) ms' w) as (w' & remaining' & Hrun & Htr & Hp & Hl' & Hm').
      * now rewrite <- app_assoc.
      * rewrite length_app. cbn. lia.
      * exact Hms'.
      * exists w', (m :: remaining'). split; [exact Hrun|]. split; [exact Htr|].
        split; [exact Hp|]. split.
        -- now rewrite <- app_assoc in Hl'.
        -- cbn [mapM]. rewrite (proj1 Hp _ _ Hmsg). now rewrite Hm'.
Qed.

Lemma rewrite_first_user_nil pdf : rewrite_first_user pdf [] = [].
Proof. reflexivity. Qed.

(** The outgoing list object holds the system message followed by the
    rewritten copy; nothing that existed before is changed. *)
Lemma build_messages_spec ss w hist :
  read_messages (heap w) (App.messages ss) = Some hist ->
  exists msgs w',
    App.build_messages ss w = Ok (msgs, w') /\
    trace w' = trace w /\
    preserved (fun l => l < length (heap w)) (heap w) (heap w') /\
    read_messages (heap w') msgs
      = Some ({| role := "system"; content := PyStr (App.system_prompt ss) |}
                :: outgoing (App.pdf_content ss) hist).
Proof.
  intros Hr. apply read_messages_inv in Hr as (es & Hl & Hm).
  unfold App.build_messages. rewrite !bind_alloc. cbn [heap trace].
  set (sys := ODict _).
  set (h1 := heap w ++ [sys]).
  set (h2 := h1 ++ [OList [length (heap w)]]).
  assert (Hl2 : read_list h2 (App.messages ss) = Some es).
  { subst h2 h1. now do 2 apply read_list_app. }
  rewrite (bind_ok _ _ _ _ _ (list_copy_ok _ {| heap := h2; trace := trace w |} _ Hl2)). cbn [heap trace].
  set (h3 := h2 ++ [OList es]).
  assert (Hch : read_list h3 (length h2) = Some es) by apply read_list_new.
  unfold get_list at 1. rewrite bind_lift_read with (a := es) by exact Hch.
  assert (Hm3 : mapM (read_dict h3) es = Some hist).
  { subst h3 h2 h1. now do 3 apply mapM_read_dict_app. }
  assert (Hold : preserved (fun l => l < length (heap w)) (heap w) h3).
  { subst h3 h2 h1. rewrite <- !app_assoc. apply preserved_app. }
  assert (Hlen3 : length h3 = S (S (S (length (heap w))))).
  { subst h3 h2 h1. rewrite !length_app. cbn. lia. }
  assert (Hlen2 : length h2 = S (S (length (heap w)))).
  { subst h2 h1. rewrite !length_app. cbn. lia. }
  assert (Hlen1 : length h1 = S (length (heap w))).
  { subst h1. rewrite !length_app. cbn. lia. }
  assert (Hstep : exists w4 es',
    (if negb (String.eqb (App.pdf_content ss) "") && negb (Nat.eqb (length es) 0)
     then App.prepend_context (App.pdf_content ss) (length h2) 0 es
     else ret tt) {| heap := h3; trace := trace w |} = Ok (tt, w4) /\
    trace w4 = trace w /\
    preserved (fun l => l <> length h2) h3 (heap w4) /\
    read_list (heap w4) (length h2) = Some es' /\
    mapM (read_dict (heap w4)) es' = Some (outgoing (App.pdf_content ss) hist)).
  { unfold outgoing. destruct (String.eqb (App.pdf_content ss) "") eqn:Hpdf; cbn [negb andb].
    - eexists _, es. repeat split; auto.
    - destruct (Nat.eqb (length es) 0) eqn:Hes; cbn [negb].
      + apply Nat.eqb_eq in Hes. apply length_zero_iff_nil in Hes. subst es.
        cbn in Hm3. injection Hm3 as <-.
        eexists _, []. repeat split; auto.
      + destruct (prepend_context_spec (App.pdf_content ss) (length h2) es 0 [] hist
                    {| heap := h3; trace := trace w |} Hch eq_refl Hm3)
          as (w4 & es' & Hrun & Htr & Hp & Hl' & Hm').
        exists w4, es'. auto. }
  destruct Hstep as (w4 & es' & Hrun & Htr & Hp & Hl' & Hm').
  rewrite (bind_ok _ _ _ _ _ Hrun).
  assert (Hmsgs : read_list (heap w4) (length h1) = Some [length (heap w)]).
  { apply (proj2 Hp); [lia|]. subst h3. apply read_list_app. apply read_list_new. }
  rewrite (bind_ok _ _ _ _ _ (list_extend_ok _ _ _ _ _ Hmsgs Hl')).
  eexists _, _. split; [reflexivity|]. cbn [heap trace]. split; [exact Htr|]. split.
  - eapply preserved_trans with (keep1 := fun l => l < length (heap w))
                                (keep2 := fun l => l <> length h1).
    + eapply preserved_trans with (keep1 := fun l => l < length (heap w))
                                  (keep2 := fun l => l <> length h2).
      * exact Hold.
      * exact Hp.
      * intros l Hlt. split; [exact Hlt|lia].
    + apply (preserved_put_list _ _ _ _ Hmsgs).
    + intros l Hlt. split; [exact Hlt|lia].
  - rewrite (read_messages_put_same _ _ _ _ Hmsgs).
    change ([length (heap w)] ++ es') with (length (heap w) :: es').
    cbn [mapM].
    assert (Hsys : read_dict (heap w4) (length (heap w))
                   = Some {| role := "system"; content := PyStr (App.system_prompt ss) |}).
    { apply (proj1 Hp). subst h3 h2 h1. do 2 apply read_dict_app. apply read_dict_new. }
    rewrite Hsys, Hm'. reflexivity.
Qed.

(** ** The orchestrator: consuming the stream *)

Lemma consume_congr fuel g g' text w w' :
  App.next g w = App.next g' w' ->
  App.consume (S fuel) g text w = App.consume (S fuel) g' text w'.
Proof. intros H. cbn [App.consume]. unfold bind. now rewrite H. Qed.

Lemma resume_eq inner w r g w' :
  PerplexityClient.next inner w = Ok ((r, g), w') ->
  App.resume inner w
    = Ok (match r with
          | Yield chunk => (Yield chunk, App.AtYieldChunk g)
          | StopIteration _ => (StopIteration PyNone, App.Finished)
          | Raise e => (Yield (error_fragment e), App.AtYieldError)
          end, w').
Proof. intros H. unfold App.resume, bind. rewrite H. now destruct r. Qed.

Lemma consume_step fuel g text w r g' w' :
  App.next g w = Ok ((r, g'), w') ->
  App.consume (S fuel) g text w
    = match r with
      | Yield chunk =>
          App.consume fuel g' (text +:+ chunk) (add_events w' [EvMarkdown (text +:+ chunk)])
      | StopIteration _ => Ok (inr text, w')
      | Raise e => Ok (inl e, w')
      end.
Proof. intros H. cbn [App.consume]. unfold bind at 1. rewrite H. now destruct r. Qed.

Lemma consume_stream cs : forall fuel fail text w,
  length cs + 1 < fuel ->
  App.consume fuel (App.AtYieldChunk (PerplexityClient.AtYield cs fail)) text w
    = Ok (inr (foldl String.append text (received (fragments cs) fail)),
          add_events w (stream_events text (fragments cs) fail)).
Proof.
  induction cs as [|c cs IH]; intros fuel fail text w Hfuel;
    (destruct fuel as [|fuel]; [lia|]).
  - destruct fuel as [|fuel]; [cbn in Hfuel; lia|].
    change (fragments []) with (@nil string).
    destruct fail as [e|].
    + rewrite consume_step with (r := Yield (error_fragment e)) (g' := App.AtYieldError)
                                (w' := log_exception e w).
      2:{ cbn [App.next]. apply (resume_eq _ _ (Raise e) PerplexityClient.Finished).
          cbn [PerplexityClient.next PerplexityClient.stream_loop]. apply on_exception_eq. }
      rewrite consume_step with (r := StopIteration PyNone) (g' := App.Finished)
                                (w' := add_events (log_exception e w)
                                         [EvMarkdown (text +:+ error_fragment e)])
        by reflexivity.
      unfold log_exception. fold (add_events w [EvPrint (log_line e)]).
      now rewrite add_events_app.
    + rewrite consume_step with (r := StopIteration PyNone) (g' := App.Finished) (w' := w)
        by reflexivity.
      cbn. now rewrite add_events_nil.
  - cbn [length] in Hfuel. rewrite fragments_cons.
    destruct (PerplexityClient.chunk_yield c) as [s|] eqn:Hc.
    + rewrite consume_step with (r := Yield s)
                                (g' := App.AtYieldChunk (PerplexityClient.AtYield cs fail)) (w' := w).
      2:{ cbn [App.next].
          apply (resume_eq _ _ (Yield s) (PerplexityClient.AtYield cs fail)).
          cbn [PerplexityClient.next PerplexityClient.stream_loop]. now rewrite Hc. }
      rewrite IH by lia.
      unfold received. cbn [app foldl stream_events].
      now rewrite add_events_app.
    + specialize (IH (S fuel) fail text w ltac:(lia)). rewrite <- IH.
      apply consume_congr. cbn [App.next]. unfold App.resume, bind.
      cbn [PerplexityClient.next]. now rewrite stream_loop_skip.
Qed.

(** Consuming the stream of a fresh generator of
    [stream_perplexity_response]: the request is issued once, with the
    messages of [msgs], and the text is the concatenation of everything
    received. *)
Lemma consume_created client msgs model fuel text w body :
  read_messages (heap w) msgs = Some body ->
  let selected := Py.or_str (PyStr model) (PerplexityClient.default_model client) in
  let response := as_stream (create_stream (PerplexityClient.client client) selected body) in
  length (chunks response) + 1 < fuel ->
  App.consume fuel (App.Created client msgs model true) text w
    = Ok (inr (foldl String.append text (received (fragments (chunks response)) (failure response))),
          add_events w (EvCreate selected body true
                          :: stream_events text (fragments (chunks response)) (failure response))).
Proof.
  intros Hbody selected response Hfuel. destruct fuel as [|fuel]; [lia|].
  pose (w1 := request_world w client PyNone (PyStr model) PyNone (Some msgs) true body).
  rewrite consume_congr
    with (g' := App.AtYieldChunk (PerplexityClient.AtYield (chunks response) (failure response)))
         (w' := w1).
  - rewrite consume_stream by lia. subst w1. unfold request_world. cbn [request_heap].
    fold selected. change {| heap := heap w; trace := trace w ++ [EvCreate selected body true] |}
      with (add_events w [EvCreate selected body true]).
    now rewrite add_events_app.
  - cbn [App.next]. unfold PerplexityClient.chat. rewrite bind_ret.
    unfold App.resume, bind. cbn [PerplexityClient.next].
    rewrite (start_eq client PyNone (PyStr model) PyNone (Some msgs) true w body Hbody).
    fold w1. unfold after_create. fold selected. subst response.
    destruct (create_stream _ selected body); reflexivity.
Qed.

(** ** Construction of the client *)

Lemma init_resolved environ OpenAI api_key base_url default_model w key :
  Py.or_ api_key (PerplexityClient.environ_get environ "PERPLEXITY_API_KEY") = PyStr key ->
  key <> "" ->
  let url := Py.or_str base_url PerplexityClient.DEFAULT_BASE_URL in
  PerplexityClient.__init__ environ OpenAI api_key base_url default_model w
    = match OpenAI key url with
      | inr handle =>
          Ok (inr {| PerplexityClient.api_key := key;
                     PerplexityClient.base_url := url;
                     PerplexityClient.default_model :=
                       Py.or_str default_model PerplexityClient.DEFAULT_MODEL;
                     PerplexityClient.client := handle |},
              add_events w [EvOpenAI key url])
      | inl e =>
          Ok (inl e,
              add_events w [EvOpenAI key url;
                            EvPrint ("Error initializing OpenAI client for Perplexity: " +:+ exn_str e)])
      end.
Proof.
  intros Hkey Hne url. unfold PerplexityClient.__init__. rewrite Hkey.
  cbn [Py.truthy Py.str]. apply String.eqb_neq in Hne. rewrite Hne. cbn [negb].
  rewrite bind_emit. fold url. destruct (OpenAI key url) as [e|handle].
  - rewrite bind_emit. unfold ret, add_events. cbn. now rewrite <- app_assoc.
  - reflexivity.
Qed.

(** ** One chat turn *)

Lemma chat_turn_spec fuel environ OpenAI ss prompt w hist key handle :
  Py.truthy prompt = true ->
  read_messages (heap w) (App.messages ss) = Some hist ->
  environ !! "PERPLEXITY_API_KEY" = Some key -> key <> "" ->
  OpenAI key PerplexityClient.DEFAULT_BASE_URL = inr handle ->
  let hist' := hist ++ [ {| role := "user"; content := prompt |} ] in
  let body := {| role := "system"; content := PyStr (App.system_prompt ss) |}
                :: outgoing (App.pdf_content ss) hist' in
  let selected := Py.or_str (PyStr (App.model ss)) PerplexityClient.DEFAULT_MODEL in
  let response := as_stream (create_stream handle selected body) in
  let fs := fragments (chunks response) in
  length (chunks response) + 1 < fuel ->
  exists w',
    App.chat_turn fuel environ OpenAI ss prompt w = Ok (None, w') /\
    read_messages (heap w') (App.messages ss)
      = Some (hist' ++ [ {| role := "assistant";
                            content := PyStr (join (received fs (failure response))) |} ]) /\
    trace w' = trace w ++ [EvOpenAI key PerplexityClient.DEFAULT_BASE_URL;
                           EvCreate selected body true]
                       ++ stream_events "" fs (failure response).
Proof.
  intros Hprompt Hhist Henv Hkey Hopen hist' body selected response fs Hfuel.
  unfold App.chat_turn. rewrite Hprompt.
  destruct (append_message_spec _ {| role := "user"; content := prompt |} _ _ Hhist)
    as (w1 & Hrun1 & Htr1 & Hr1 & _).
  change (u <- alloc (ODict {| role := "user"; content := prompt |}) ;;
          list_append (App.messages ss) u ;; ?k)
    with (u <- alloc (ODict {| role := "user"; content := prompt |}) ;;
          list_append (App.messages ss) u ;; k).
  unfold bind at 1 2.
  change (alloc (ODict {| role := "user"; content := prompt |}) w)
    with (Ok (length (heap w), {| heap := heap w ++ [ODict {| role := "user"; content := prompt |}];
                                  trace := trace w |})).
  cbv beta iota.
  unfold bind at 1 in Hrun1. cbv beta iota in Hrun1.
  change (alloc (ODict {| role := "user"; content := prompt |}) w)
    with (Ok (length (heap w), {| heap := heap w ++ [ODict {| role := "user"; content := prompt |}];
                                  trace := trace w |})) in Hrun1.
  cbv beta iota in Hrun1. rewrite Hrun1.
  rewrite bind_ok with (a := inr {| PerplexityClient.api_key := key;
                     PerplexityClient.base_url := PerplexityClient.DEFAULT_BASE_URL;
                     PerplexityClient.default_model := PerplexityClient.DEFAULT_MODEL;
                     PerplexityClient.client := handle |})
                       (w' := add_events w1 [EvOpenAI key PerplexityClient.DEFAULT_BASE_URL]).
  2:{ rewrite (init_resolved _ _ _ _ _ _ key); [| |exact Hkey].
      - cbn. change (Py.or_str PyNone PerplexityClient.DEFAULT_BASE_URL)
          with PerplexityClient.DEFAULT_BASE_URL. now rewrite Hopen.
      - unfold PerplexityClient.environ_get. rewrite Henv. reflexivity. }
  destruct (build_messages_spec ss (add_events w1 [EvOpenAI key PerplexityClient.DEFAULT_BASE_URL])
              hist' Hr1) as (msgs & w2 & Hrun2 & Htr2 & Hp2 & Hr2).
  rewrite (bind_ok _ _ _ _ _ Hrun2).
  unfold App.stream_perplexity_response. rewrite bind_ret.
  pose proof (consume_created
                {| PerplexityClient.api_key := key;
                   PerplexityClient.base_url := PerplexityClient.DEFAULT_BASE_URL;
                   PerplexityClient.default_model := PerplexityClient.DEFAULT_MODEL;
                   PerplexityClient.client := handle |}
                msgs (App.model ss) fuel "" w2 _ Hr2) as Hrun3.
  cbn [PerplexityClient.default_model PerplexityClient.client] in Hrun3.
  specialize (Hrun3 Hfuel). fold selected body response fs in Hrun3.
  rewrite (bind_ok _ _ _ _ _ Hrun3).
  rewrite foldl_append_join. change ("" +:+ ?s) with s.
  assert (Hstored : read_messages (heap w2) (App.messages ss) = Some hist').
  { apply (preserved_messages _ _ _ _ _ Hp2); [|exact Hr1].
    cbn [add_events heap]. apply read_messages_inv in Hr1 as (es & Hl & _).
    now apply read_list_lt in Hl. }
  set (w3 := add_events w2 _).
  destruct (append_message_spec (App.messages ss)
              {| role := "assistant"; content := PyStr (join (received fs (failure response))) |}
              w3 hist' Hstored) as (w4 & Hrun4 & Htr4 & Hr4 & _).
  exists w4. split; [|split].
  - unfold bind at 1 2. unfold bind at 1 in Hrun4.
    destruct (alloc _ w3) as [[a wa]| |] eqn:Ha; try discriminate.
    cbv beta iota in Hrun4 |- *. now rewrite Hrun4.
  - exact Hr4.
  - rewrite Htr4. subst w3. cbn [add_events trace]. rewrite Htr2. cbn [add_events trace].
    rewrite Htr1. now rewrite <- !app_assoc.
Qed.

Lemma stream_events_no_request fs : forall text failure,
  forallb (fun ev => negb (is_request ev)) (stream_events text fs failure) = true.
Proof.
  induction fs as [|f fs IH]; intros text failure; cbn.
  - now destruct failure.
  - apply IH.
Qed.

(** * The properties of the specification *)

Section ClientClaims.

Import PerplexityClient.

(** ** The client wrapper *)

Lemma stream_loop_events cs fail w :
  exists r w' evs,
    stream_loop cs fail w = Ok (r, w') /\ heap w' = heap w /\
    trace w' = trace w ++ evs /\ forallb (fun ev => negb (is_request ev)) evs = true.
Proof.
  induction cs as [|c cs IH]; cbn [stream_loop].
  - destruct fail as [e|].
    + rewrite on_exception_eq. eexists _, _, [_]. repeat split.
    + eexists _, w, []. repeat split. now rewrite app_nil_r.
  - destruct (chunk_yield c); [|exact IH].
    eexists _, w, []. repeat split. now rewrite app_nil_r.
Qed.

Lemma after_create_events self model stream body w :
  exists r w' evs,
    after_create self model stream body w = Ok (r, w') /\ heap w' = heap w /\
    trace w' = trace w ++ evs /\ forallb (fun ev => negb (is_request ev)) evs = true.
Proof.
  unfold after_create. destruct stream.
  - destruct (create_stream _ _ _) as [e|response].
    + rewrite on_exception_eq. eexists _, _, [_]. repeat split.
    + apply stream_loop_events.
  - destruct (create _ _ _) as [e|response].
    + rewrite on_exception_eq. eexists _, _, [_]. repeat split.
    + rewrite bind_emit. destruct (choices response).
      * rewrite on_exception_eq. eexists _, _, [_; _].
        split; [reflexivity|]. split; [reflexivity|].
        split; [cbn; now rewrite <- app_assoc|reflexivity].
      * eexists _, _, [_]. repeat split.
Qed.

Lemma or_str_nonempty_or v fallback : Py.or_str v fallback = nonempty_or v fallback.
Proof.
  destruct v as [|s]; [reflexivity|]. unfold Py.or_str, Py.or_, nonempty_or. cbn [Py.truthy].
  destruct (String.eqb_spec s ""); destruct (decide (s = "")); cbn; congruence.
Qed.

Lemma chunk_yield_Some c s : chunk_yield c = Some s <-> carries c s.
Proof.
  unfold chunk_yield, carries. split.
  - destruct (chunk_choices c) as [[|c0 rest]|]; try discriminate.
    destruct (delta c0) as [d|] eqn:Hd; try discriminate.
    destruct (delta_content d) as [[|t]|] eqn:Ht; cbn; try discriminate.
    destruct (String.eqb_spec t ""); cbn; try discriminate.
    intros [= <-]. exists c0, rest, d. auto.
  - intros (c0 & rest & d & -> & -> & -> & Hs). cbn.
    apply String.eqb_neq in Hs. now rewrite Hs.
Qed.

Lemma fragments_delivered cs : delivered cs (fragments cs).
Proof.
  induction cs as [|c cs IH]; [constructor|]. rewrite fragments_cons.
  destruct (chunk_yield c) as [s|] eqn:Hc.
  - apply delivered_yield; [now apply chunk_yield_Some|exact IH].
  - apply delivered_skip; [|exact IH].
    intros s Hs. apply chunk_yield_Some in Hs. congruence.
Qed.

Lemma fragments_nonempty cs : Forall (fun s => s <> "") (fragments cs).
Proof.
  induction cs as [|c cs IH]; [constructor|]. rewrite fragments_cons.
  destruct (chunk_yield c) as [s|] eqn:Hc; [|exact IH].
  constructor; [|exact IH]. apply chunk_yield_Some in Hc as (? & ? & ? & _ & _ & _ & Hs).
  exact Hs.
Qed.

Lemma delta_text_yield c : delta_text c = default "" (chunk_yield c).
Proof.
  unfold delta_text, chunk_yield.
  destruct (chunk_choices c) as [[|c0 rest]|]; try reflexivity.
  destruct (delta c0) as [d|]; try reflexivity.
  destruct (delta_content d) as [[|t]|]; try reflexivity. cbn.
  destruct (String.eqb_spec t ""); cbn; congruence.
Qed.

Lemma join_fragments cs : join (fragments cs) = join (delta_text <$> cs).
Proof.
  induction cs as [|c cs IH]; [reflexivity|].
  rewrite fragments_cons, fmap_cons. cbn [join foldr]. fold (join (delta_text <$> cs)).
  rewrite <- IH, delta_text_yield. now destruct (chunk_yield c).
Qed.

(** The first resumption fixes the conversation, issues one request
    with it and handles the answer. *)
Lemma first_resumption_request self message model system_prompt messages stream w body :
  request_body (heap w) system_prompt message messages = Some body ->
  exists r w' evs,
    next (Created self message model system_prompt messages stream) w = Ok (r, w') /\
    trace w' = trace w ++ EvCreate (Py.or_str model (default_model self)) body stream :: evs /\
    forallb (fun ev => negb (is_request ev)) evs = true /\
    heap w' = request_heap (heap w) system_prompt message messages.
Proof.
  intros Hbody. cbn [next]. rewrite (start_eq _ _ _ _ _ _ _ _ Hbody).
  destruct (after_create_events self model stream body
              (request_world w self message model system_prompt messages stream body))
    as (r & w' & evs & Hrun & Hheap & Htrace & Hevs).
  exists r, w', evs. split; [exact Hrun|]. split; [|split; [exact Hevs|exact Hheap]].
  rewrite Htrace. cbn [request_world trace]. now rewrite <- app_assoc.
Qed.

(** C1 (the code departs from its documented return value). At the
    scenario of the specification -- client with key "k" and the default
    base URL and model, [chat("How many stars are there in our galaxy?",
    stream=False)] against a mock whose content is "About 100 billion." --
    the call evaluates to a generator object and leaves the world as it
    was (no request issued); it does not evaluate to the string
    "About 100 billion.". *)
Theorem chat_buffered_call_yields_generator_object :
  chat (Examples.client_of Examples.galaxy) (PyStr Examples.question) PyNone PyNone None false
       Examples.w0
    = Ok (RetGenerator (Created (Examples.client_of Examples.galaxy)
                                (PyStr Examples.question) PyNone PyNone None false),
          Examples.w0)
  /\ forall w',
       chat (Examples.client_of Examples.galaxy) (PyStr Examples.question) PyNone PyNone None
            false Examples.w0
         <> Ok (RetValue (PyStr "About 100 billion."), w').
Proof. split; [reflexivity|]. intros w' H. discriminate H. Qed.


(** C6. When [messages] is supplied, the request carries the messages of
    that list as they are, whatever [system_prompt] and [message] are,
    and nothing is synthesised (the heap is unchanged); otherwise the
    request carries exactly the system message with the effective system
    prompt followed by the user message with [message]. One request is
    issued by the first resumption. *)
Theorem chat_request_messages
    (self : t) (message model system_prompt : Py.value) (messages : option loc)
    (stream : bool) (w : World) (body : list Message) :
  match messages with
  | Some l => read_messages (heap w) l = Some body
  | None =>
      body = [ {| role := "system";
                  content := PyStr (Py.or_str system_prompt DEFAULT_SYSTEM_PROMPT) |};
               {| role := "user"; content := message |} ]
  end ->
  exists r w' evs,
    next (Created self message model system_prompt messages stream) w = Ok (r, w') /\
    trace w' = trace w ++ EvCreate (Py.or_str model (default_model self)) body stream :: evs /\
    forallb (fun ev => negb (is_request ev)) evs = true /\
    (is_Some messages -> heap w' = heap w).
Proof.
  intros H.
  assert (Hbody : request_body (heap w) system_prompt message messages = Some body).
  { destruct messages; [exact H|]. now subst body. }
  destruct (first_resumption_request self message model system_prompt messages stream w body Hbody)
    as (r & w' & evs & Hrun & Htrace & Hevs & Hheap).
  exists r, w', evs. split; [exact Hrun|]. split; [exact Htrace|]. split; [exact Hevs|].
  intros [l ->]. exact Hheap.
Qed.

(** The text of a completed stream is the text the buffered generator
    carries. Against a provider whose buffered answer to the same request
    has as first-choice content the concatenation of the texts its chunks
    carry: the streaming iteration ends after finitely many resumptions,
    and the concatenation of its fragments, in order, is the value of the
    [StopIteration] that ends the buffered iteration. *)
Theorem stream_concatenation_equals_buffered_content
    (self : t) (message model system_prompt : Py.value) (messages : option loc)
    (w : World) (body : list Message) (cs : list Chunk)
    (response : ChatCompletion) (c0 : Choice) (rest : list Choice) :
  request_body (heap w) system_prompt message messages = Some body ->
  create_stream (client self) (Py.or_str model (default_model self)) body
    = inr {| chunks := cs; failure := None |} ->
  create (client self) (Py.or_str model (default_model self)) body = inr response ->
  choices response = c0 :: rest ->
  message_content c0 = PyStr (join (delta_text <$> cs)) ->
  exists fs w1 w2,
    (forall fuel, length cs < fuel ->
        iterate next fuel (Created self message model system_prompt messages true) [] w
          = Ok ((fs, StopIteration PyNone), w1)) /\
    (forall fuel, 0 < fuel ->
        iterate next fuel (Created self message model system_prompt messages false) [] w
          = Ok (([], StopIteration (PyStr (join fs))), w2)).
Proof.
  intros Hbody Hstream Hcreate Hchoices Hcontent.
  exists (fragments cs), (request_world w self message model system_prompt messages true body).
  eexists. split.
  - intros fuel Hfuel.
    now rewrite (iterate_chat_stream self message model system_prompt messages w body Hbody
                   _ fuel [] Hstream).
  - intros fuel Hfuel. rewrite join_fragments, <- Hcontent.
    now apply (iterate_chat_buffered self message model system_prompt messages w body Hbody
                 response c0 rest).
Qed.

(** C7 (the defect of C1, seen from the streaming side). At the scenario
    of the specification, the streaming call against the mock yields
    finitely many fragments whose concatenation, in order, is
    "About 100 billion."; the equivalent non-streaming call does not
    return that content: it returns a generator object and issues no
    request. *)
Theorem streamed_text_is_not_returned_by_buffered_call :
  exists fs w1,
    iterate next 8
            (Created (Examples.client_of Examples.galaxy) (PyStr Examples.question)
                     PyNone PyNone None true) [] Examples.w0
      = Ok ((fs, StopIteration PyNone), w1) /\
    join fs = "About 100 billion." /\
    chat (Examples.client_of Examples.galaxy) (PyStr Examples.question) PyNone PyNone None false
         Examples.w0
      = Ok (RetGenerator (Created (Examples.client_of Examples.galaxy)
                                  (PyStr Examples.question) PyNone PyNone None false),
            Examples.w0) /\
    forall w',
      chat (Examples.client_of Examples.galaxy) (PyStr Examples.question) PyNone PyNone None
           false Examples.w0
        <> Ok (RetValue (PyStr (join fs)), w').
Proof.
  exists ["About "; "100 billion"; "."]. eexists. split; [reflexivity|].
  split; [reflexivity|]. split; [reflexivity|]. intros w' H. discriminate H.
Qed.

(** C8. In a streaming call, the yielded fragments are, in order, the
    contents of the chunks that carry content (a non-empty string at
    [choices[0].delta.content]), one fragment per such chunk; chunks
    whose delta has no content (missing, [None] or empty) yield nothing,
    and no fragment is the empty string. *)
Theorem stream_yields_one_fragment_per_content_delta
    (self : t) (message model system_prompt : Py.value) (messages : option loc)
    (w : World) (body : list Message) (response : StreamResponse) :
  request_body (heap w) system_prompt message messages = Some body ->
  create_stream (client self) (Py.or_str model (default_model self)) body = inr response ->
  exists fs w',
    (forall fuel, length (chunks response) < fuel ->
        iterate next fuel (Created self message model system_prompt messages true) [] w
          = Ok ((fs, stream_end (failure response)), w')) /\
    delivered (chunks response) fs /\
    Forall (fun s => s <> "") fs.
Proof.
  intros Hbody Hstream. exists (fragments (chunks response)). eexists. split; [|split].
  - intros fuel Hfuel.
    now rewrite (iterate_chat_stream self message model system_prompt messages w body Hbody
                   _ fuel [] Hstream).
  - apply fragments_delivered.
  - apply fragments_nonempty.
Qed.

(** C9 fails when an option is supplied as the empty string:
    [chat(question, model="", system_prompt="")] on a client whose
    default model is "sonar" requests model "sonar" with the default
    system prompt. *)
Lemma empty_options_fall_back_to_defaults :
  ~ effective_options_as_stated (Examples.client_of Examples.galaxy)
      (PyStr Examples.question) (PyStr "") (PyStr "") Examples.w0.
Proof.
  intros (r & w' & evs & Hnext & Htrace).
  vm_compute in Hnext. injection Hnext as <- <-.
  vm_compute in Htrace. discriminate Htrace.
Qed.

(** C9, amended. The request uses the [model] option when it is supplied
    and non-empty, otherwise the client's [default_model]; when the
    conversation is synthesised, its system message holds the
    [system_prompt] option when it is supplied and non-empty, otherwise
    "Be precise and concise.". *)
Theorem effective_model_and_system_prompt
    (self : t) (message model system_prompt : Py.value) (messages : option loc)
    (stream : bool) (w : World) (body : list Message) :
  match messages with
  | Some l => read_messages (heap w) l = Some body
  | None =>
      body = [ {| role := "system";
                  content := PyStr (nonempty_or system_prompt "Be precise and concise.") |};
               {| role := "user"; content := message |} ]
  end ->
  exists r w' evs,
    next (Created self message model system_prompt messages stream) w = Ok (r, w') /\
    trace w' = trace w ++ EvCreate (nonempty_or model (default_model self)) body stream :: evs /\
    forallb (fun ev => negb (is_request ev)) evs = true.
Proof.
  intros H. rewrite <- or_str_nonempty_or.
  assert (Hbody : request_body (heap w) system_prompt message messages = Some body).
  { destruct messages; [exact H|]. subst body. cbn [request_body]. unfold synthesized.
    now rewrite or_str_nonempty_or. }
  destruct (first_resumption_request self message model system_prompt messages stream w body Hbody)
    as (r & w' & evs & Hrun & Htrace & Hevs & _).
  exists r, w', evs. auto.
Qed.

(** C10. When the underlying request of a call raises [e] -- refused by
    the provider, or broken after some chunks of a stream -- iterating
    the generator ends by raising that same [e] to the caller, right
    after one line is printed for it ("Perplexity API Error: ..." for a
    provider error, "An unexpected error occurred: ..." otherwise), and
    no [StopIteration] value is produced. *)
Theorem chat_logs_and_reraises
    (self : t) (message model system_prompt : Py.value) (messages : option loc)
    (stream : bool) (w : World) (body : list Message) (e : Py.exn) (cs : list Chunk) :
  request_body (heap w) system_prompt message messages = Some body ->
  request_raises (client self) (Py.or_str model (default_model self)) body stream e cs ->
  exists fs w',
    (forall fuel, length cs < fuel ->
        iterate next fuel (Created self message model system_prompt messages stream) [] w
          = Ok ((fs, Raise e), w')) /\
    trace w' = trace w ++ [EvCreate (Py.or_str model (default_model self)) body stream;
                           EvPrint (log_line e)] /\
    log_line e = (if Py.is_OpenAIError e then "Perplexity API Error: " +:+ exn_str e
                  else "An unexpected error occurred: " +:+ exn_str e).
Proof.
  intros Hbody Hraise.
  assert (Hline : log_line e = (if Py.is_OpenAIError e then "Perplexity API Error: " +:+ exn_str e
                                else "An unexpected error occurred: " +:+ exn_str e)).
  { unfold log_line, Py.is_OpenAIError. now destruct (exn_cls e). }
  destruct Hraise as [e Hcreate|e Hcreate|e cs Hcreate].
  - exists [], (log_exception e (request_world w self message model system_prompt messages false body)).
    split; [|split; [|exact Hline]].
    + intros fuel Hfuel.
      now apply (iterate_chat_refused self message model system_prompt messages w body Hbody false).
    + cbn. now rewrite <- app_assoc.
  - exists [], (log_exception e (request_world w self message model system_prompt messages true body)).
    split; [|split; [|exact Hline]].
    + intros fuel Hfuel.
      now apply (iterate_chat_refused self message model system_prompt messages w body Hbody true).
    + cbn. now rewrite <- app_assoc.
  - exists (fragments cs),
      (log_exception e (request_world w self message model system_prompt messages true body)).
    split; [|split; [|exact Hline]].
    + intros fuel Hfuel.
      now rewrite (iterate_chat_stream self message model system_prompt messages w body Hbody
                     _ fuel [] Hcreate).
    + cbn. now rewrite <- app_assoc.
Qed.

End ClientClaims.

(** ** Construction *)

(** C3. The API key is the [api_key] argument when it is a non-empty
    string, whatever the environment holds; otherwise the value of
    [PERPLEXITY_API_KEY] when that is a non-empty string; otherwise
    (argument absent or empty, variable absent or empty) construction fails
    with the [ValueError] that reports the missing key -- the
    specification's ConfigurationError -- and the world is unchanged: no
    handle is built and no request is made. *)
Theorem init_key_resolution
    (environ : gmap string string) (OpenAI : string -> string -> Py.exn + Provider)
    (api_key base_url default_model : Py.value) (w : World) :
  (forall key, api_key = PyStr key -> key <> "" ->
      PerplexityClient.__init__ environ OpenAI api_key base_url default_model w
        = constructed_with OpenAI key base_url default_model w) /\
  (forall key, absent_or_empty api_key ->
      environ !! "PERPLEXITY_API_KEY" = Some key -> key <> "" ->
      PerplexityClient.__init__ environ OpenAI api_key base_url default_model w
        = constructed_with OpenAI key base_url default_model w) /\
  (absent_or_empty api_key ->
   environ !! "PERPLEXITY_API_KEY" = None \/ environ !! "PERPLEXITY_API_KEY" = Some "" ->
      PerplexityClient.__init__ environ OpenAI api_key base_url default_model w
        = Ok (inl (Exn ValueError PerplexityClient.KEY_MISSING), w)).
Proof.
  split; [|split].
  - intros key -> Hkey. apply init_resolved; [|exact Hkey].
    unfold Py.or_. cbn [Py.truthy]. apply String.eqb_neq in Hkey. now rewrite Hkey.
  - intros key Habsent Henv Hkey. apply init_resolved; [|exact Hkey].
    unfold PerplexityClient.environ_get. rewrite Henv. now destruct Habsent as [-> | ->].
  - intros Habsent Henv. unfold PerplexityClient.__init__, PerplexityClient.environ_get.
    destruct Habsent as [-> | ->]; destruct Henv as [-> | ->]; reflexivity.
Qed.

(** ** The chat turn *)

Lemma rewrite_first_user_length pdf ms : length (rewrite_first_user pdf ms) = length ms.
Proof.
  induction ms as [|m ms IH]; [reflexivity|]. cbn [rewrite_first_user].
  destruct (String.eqb (role m) "user"); cbn; now rewrite ?IH.
Qed.

Lemma list_find_user_cons (m : Message) (ms : list Message) :
  list_find (fun m => role m = "user") (m :: ms)
    = if decide (role m = "user") then Some (0, m)
      else prod_map S id <$> list_find (fun m => role m = "user") ms.
Proof. reflexivity. Qed.

(** Position by position: the first message whose role is "user" is
    replaced, every other message is kept. *)
Lemma rewrite_first_user_lookup pdf ms : forall i m,
  ms !! i = Some m ->
  rewrite_first_user pdf ms !! i
    = Some (if decide (fst <$> list_find (fun m => role m = "user") ms = Some i)
            then with_context pdf m else m).
Proof.
  induction ms as [|m0 ms IH]; intros i m Hi; [discriminate|].
  cbn [rewrite_first_user]. rewrite list_find_user_cons.
  destruct (String.eqb_spec (role m0) "user") as [Hu|Hu];
    destruct (decide (role m0 = "user")) as [Hd|Hd]; try contradiction.
  - destruct i as [|i]; cbn in Hi |- *.
    + injection Hi as <-. now rewrite decide_True.
    + rewrite decide_False by discriminate. exact Hi.
  - destruct i as [|i]; cbn in Hi |- *.
    + injection Hi as <-.
      rewrite decide_False; [reflexivity|].
      destruct (list_find _ ms) as [[j x]|]; discriminate.
    + etransitivity; [exact (IH i m Hi)|]. f_equal.
      destruct (list_find _ ms) as [[j x]|]; cbn.
      * destruct (decide (Some j = Some i)) as [E|E];
          destruct (decide (Some (S j) = Some (S i))) as [E'|E']; try reflexivity; congruence.
      * rewrite !decide_False by discriminate. reflexivity.
Qed.

Lemma iterate_step {G} (nx : G -> M (Py.next_result * G)) fuel g (acc : list string) w r g' w' :
  nx g w = Ok ((r, g'), w') ->
  iterate nx (S fuel) g acc w
    = match r with
      | Yield s => iterate nx fuel g' (acc ++ [s]) w'
      | _ => Ok ((acc, r), w')
      end.
Proof. intros H. cbn [iterate]. unfold bind at 1. rewrite H. now destruct r. Qed.

Lemma iterate_spr_stream cs : forall fuel fail (acc : list string) w,
  length cs + 1 < fuel ->
  iterate App.next fuel (App.AtYieldChunk (PerplexityClient.AtYield cs fail)) acc w
    = Ok ((acc ++ received (fragments cs) fail, StopIteration PyNone), stream_end_world fail w).
Proof.
  induction cs as [|c cs IH]; intros fuel fail acc w Hfuel;
    (destruct fuel as [|fuel]; [lia|]).
  - destruct fuel as [|fuel]; [cbn in Hfuel; lia|].
    change (fragments []) with (@nil string). unfold received. cbn [app].
    destruct fail as [e|].
    + rewrite iterate_step with (r := Yield (error_fragment e)) (g' := App.AtYieldError)
                                (w' := log_exception e w).
      2:{ cbn [App.next]. apply (resume_eq _ _ (Raise e) PerplexityClient.Finished).
          cbn [PerplexityClient.next PerplexityClient.stream_loop]. apply on_exception_eq. }
      reflexivity.
    + rewrite iterate_step with (r := StopIteration PyNone) (g' := App.Finished) (w' := w)
        by reflexivity.
      now rewrite app_nil_r.
  - cbn [length] in Hfuel. rewrite fragments_cons.
    destruct (PerplexityClient.chunk_yield c) as [s|] eqn:Hc.
    + rewrite iterate_step with (r := Yield s)
                                (g' := App.AtYieldChunk (PerplexityClient.AtYield cs fail)) (w' := w).
      2:{ cbn [App.next].
          apply (resume_eq _ _ (Yield s) (PerplexityClient.AtYield cs fail)).
          cbn [PerplexityClient.next PerplexityClient.stream_loop]. now rewrite Hc. }
      rewrite IH by lia. unfold received. now rewrite <- !app_assoc.
    + specialize (IH (S fuel) fail acc w ltac:(lia)). rewrite <- IH.
      apply iterate_congr. cbn [App.next]. unfold App.resume, bind.
      cbn [PerplexityClient.next]. now rewrite stream_loop_skip.
Qed.

(** What iterating a fresh generator of [stream_perplexity_response]
    delivers: the fragments of the stream and, if the stream raises, one
    fragment for the exception; the iteration itself never raises. *)
Lemma iterate_spr_created client msgs model fuel w body :
  read_messages (heap w) msgs = Some body ->
  let selected := Py.or_str (PyStr model) (PerplexityClient.default_model client) in
  let response := as_stream (create_stream (PerplexityClient.client client) selected body) in
  length (chunks response) + 1 < fuel ->
  iterate App.next fuel (App.Created client msgs model true) [] w
    = Ok ((received (fragments (chunks response)) (failure response), StopIteration PyNone),
          stream_end_world (failure response)
            (add_events w [EvCreate selected body true])).
Proof.
  intros Hbody selected response Hfuel. destruct fuel as [|fuel]; [lia|].
  pose (w1 := request_world w client PyNone (PyStr model) PyNone (Some msgs) true body).
  rewrite iterate_congr
    with (g' := App.AtYieldChunk (PerplexityClient.AtYield (chunks response) (failure response)))
         (w' := w1).
  - rewrite iterate_spr_stream by lia. reflexivity.
  - cbn [App.next]. unfold PerplexityClient.chat. rewrite bind_ret.
    unfold App.resume, bind. cbn [PerplexityClient.next].
    rewrite (start_eq client PyNone (PyStr model) PyNone (Some msgs) true w body Hbody).
    fold w1. unfold after_create. fold selected. subst response.
    destruct (create_stream _ selected body); reflexivity.
Qed.

(** C4. When the stream of a turn raises [e] -- at the request or after
    some fragments -- the generator the turn consumes yields the fragments
    already produced followed by exactly one fragment "[Error: <str(e)>]"
    and then stops; the turn itself ends normally, and the stored
    conversation gains the prompt and an assistant message whose content is
    the concatenation of those fragments followed by the error fragment. *)
Theorem stream_error_becomes_trailing_fragment
    (fuel : nat) (environ : gmap string string)
    (OpenAI : string -> string -> Py.exn + Provider)
    (ss : App.SessionState) (prompt : Py.value) (w : World)
    (hist : list Message) (key : string) (handle : Provider) (e : Py.exn) :
  Py.truthy prompt = true ->
  read_messages (heap w) (App.messages ss) = Some hist ->
  environ !! "PERPLEXITY_API_KEY" = Some key -> key <> "" ->
  OpenAI key PerplexityClient.DEFAULT_BASE_URL = inr handle ->
  let hist' := hist ++ [ {| role := "user"; content := prompt |} ] in
  let body := {| role := "system"; content := PyStr (App.system_prompt ss) |}
                :: outgoing (App.pdf_content ss) hist' in
  let selected := Py.or_str (PyStr (App.model ss)) PerplexityClient.DEFAULT_MODEL in
  let response := as_stream (create_stream handle selected body) in
  let fs := fragments (chunks response) in
  failure response = Some e ->
  length (chunks response) + 1 < fuel ->
  (forall client msgs w1,
      PerplexityClient.client client = handle ->
      PerplexityClient.default_model client = PerplexityClient.DEFAULT_MODEL ->
      read_messages (heap w1) msgs = Some body ->
      exists w2,
        iterate App.next fuel (App.Created client msgs (App.model ss) true) [] w1
          = Ok ((fs ++ ["[Error: " +:+ exn_str e +:+ "]"], StopIteration PyNone), w2)) /\
  exists w',
    App.chat_turn fuel environ OpenAI ss prompt w = Ok (None, w') /\
    read_messages (heap w') (App.messages ss)
      = Some (hist' ++ [ {| role := "assistant";
                            content := PyStr (join fs +:+ "[Error: " +:+ exn_str e +:+ "]") |} ]).
Proof.
  intros Hprompt Hhist Henv Hkey Hopen hist' body selected response fs Hfail Hfuel. split.
  - intros client msgs w1 Hclient Hmodel Hbody.
    pose proof (iterate_spr_created client msgs (App.model ss) fuel w1 body Hbody) as H.
    cbv zeta in H. rewrite Hclient, Hmodel in H.
    fold selected response in H. specialize (H Hfuel). rewrite Hfail in H.
    eexists. exact H.
  - destruct (chat_turn_spec fuel environ OpenAI ss prompt w hist key handle
                Hprompt Hhist Henv Hkey Hopen Hfuel) as (w' & Hrun & Hstored & _).
    exists w'. split; [exact Hrun|].
    rewrite Hstored. fold hist' body selected response fs. rewrite Hfail.
    unfold received. rewrite join_app. cbn [join foldr]. unfold error_fragment.
    now rewrite append_nil_r.
Qed.

(** C5. In the request of a turn, the conversation sent after the system
    message has the length of the stored conversation (prompt included).
    With an empty document text it is the stored conversation; with a
    non-empty one, the message at the position of the first user-role
    message is replaced by a user message whose content is
    "Context from PDF:\n<document_text>\n\n<original_content>" and the
    message at every other position is the stored one. After the turn the
    stored conversation holds the messages it held, as they were, then the
    prompt and the assistant reply. *)
Theorem document_context_goes_to_first_user_message_only
    (fuel : nat) (environ : gmap string string)
    (OpenAI : string -> string -> Py.exn + Provider)
    (ss : App.SessionState) (prompt : Py.value) (w : World)
    (hist : list Message) (key : string) (handle : Provider) :
  Py.truthy prompt = true ->
  read_messages (heap w) (App.messages ss) = Some hist ->
  environ !! "PERPLEXITY_API_KEY" = Some key -> key <> "" ->
  OpenAI key PerplexityClient.DEFAULT_BASE_URL = inr handle ->
  let hist' := hist ++ [ {| role := "user"; content := prompt |} ] in
  let out := outgoing (App.pdf_content ss) hist' in
  let body := {| role := "system"; content := PyStr (App.system_prompt ss) |} :: out in
  let selected := Py.or_str (PyStr (App.model ss)) PerplexityClient.DEFAULT_MODEL in
  length (chunks (as_stream (create_stream handle selected body))) + 1 < fuel ->
  (exists w' evs reply,
      App.chat_turn fuel environ OpenAI ss prompt w = Ok (None, w') /\
      trace w' = trace w ++ [EvOpenAI key PerplexityClient.DEFAULT_BASE_URL;
                             EvCreate selected body true] ++ evs /\
      forallb (fun ev => negb (is_request ev)) evs = true /\
      read_messages (heap w') (App.messages ss)
        = Some (hist' ++ [ {| role := "assistant"; content := PyStr reply |} ])) /\
  length out = length hist' /\
  (App.pdf_content ss = "" -> out = hist') /\
  (App.pdf_content ss <> "" ->
   forall i m, hist' !! i = Some m ->
     out !! i
       = Some (if decide (fst <$> list_find (fun m => role m = "user") hist' = Some i)
               then {| role := "user";
                       content := PyStr ("Context from PDF:" +:+ nl +:+ App.pdf_content ss
                                           +:+ nl +:+ nl +:+ Py.str (content m)) |}
               else m)).
Proof.
  intros Hprompt Hhist Henv Hkey Hopen hist' out body selected Hfuel.
  split; [|split; [|split]].
  - destruct (chat_turn_spec fuel environ OpenAI ss prompt w hist key handle
                Hprompt Hhist Henv Hkey Hopen Hfuel) as (w' & Hrun & Hstored & Htrace).
    exists w'. eexists _, _. split; [exact Hrun|]. split; [exact Htrace|].
    split; [|exact Hstored]. apply stream_events_no_request.
  - unfold out, outgoing. destruct (String.eqb (App.pdf_content ss) ""); [reflexivity|].
    apply rewrite_first_user_length.
  - intros Hpdf. unfold out, outgoing. now rewrite Hpdf.
  - intros Hpdf i m Hi. unfold out, outgoing.
    apply String.eqb_neq in Hpdf. rewrite Hpdf.
    now rewrite (rewrite_first_user_lookup _ _ _ _ Hi).
Qed.

(** ** The theorems at concrete runs *)


Lemma init_key_resolution_witness :
  PerplexityClient.__init__ Examples.environ_k (fun _ _ => inr Examples.galaxy)
      (PyStr "explicit") PyNone PyNone Examples.w0
    = constructed_with (fun _ _ => inr Examples.galaxy) "explicit" PyNone PyNone Examples.w0 /\
  PerplexityClient.__init__ Examples.environ_k (fun _ _ => inr Examples.galaxy)
      (PyStr "") PyNone PyNone Examples.w0
    = constructed_with (fun _ _ => inr Examples.galaxy) "k" PyNone PyNone Examples.w0 /\
  PerplexityClient.__init__ ∅ (fun _ _ => inr Examples.galaxy) PyNone PyNone PyNone Examples.w0
    = Ok (inl (Exn ValueError PerplexityClient.KEY_MISSING), Examples.w0).
Proof.
  split; [|split].
  - apply (proj1 (init_key_resolution Examples.environ_k (fun _ _ => inr Examples.galaxy)
                    (PyStr "explicit") PyNone PyNone Examples.w0) "explicit" eq_refl).
    discriminate.
  - apply (proj1 (proj2 (init_key_resolution Examples.environ_k (fun _ _ => inr Examples.galaxy)
                           (PyStr "") PyNone PyNone Examples.w0)) "k").
    + right. reflexivity.
    + vm_compute. reflexivity.
    + discriminate.
  - apply (proj2 (proj2 (init_key_resolution ∅ (fun _ _ => inr Examples.galaxy)
                           PyNone PyNone PyNone Examples.w0))).
    + left. reflexivity.
    + left. vm_compute. reflexivity.
Defined.

Lemma stream_error_becomes_trailing_fragment_witness :
  exists w',
    App.chat_turn 10 Examples.environ_k (fun _ _ => inr Examples.flaky)
                  (Examples.session "DOC") (PyStr "hi") Examples.w_session = Ok (None, w') /\
    read_messages (heap w') 0
      = Some [ {| role := "user"; content := PyStr "hi" |};
               {| role := "assistant"; content := PyStr "About 100[Error: timed out]" |} ].
Proof.
  assert (Henv : Examples.environ_k !! "PERPLEXITY_API_KEY" = Some "k")
    by (vm_compute; reflexivity).
  assert (Hkey : "k" <> "") by discriminate.
  assert (Hfuel : 2 + 1 < 10) by lia.
  destruct (stream_error_becomes_trailing_fragment 10 Examples.environ_k
              (fun _ _ => inr Examples.flaky) (Examples.session "DOC") (PyStr "hi")
              Examples.w_session [] "k" Examples.flaky Examples.timed_out
              eq_refl eq_refl Henv Hkey eq_refl eq_refl Hfuel) as [_ (w' & Hrun & Hstored)].
  exists w'. split; [exact Hrun|exact Hstored].
Defined.

Lemma document_context_goes_to_first_user_message_only_witness :
  exists w' evs,
    App.chat_turn 10 Examples.environ_k (fun _ _ => inr Examples.galaxy)
                  (Examples.session "DOC") (PyStr "second") Examples.w_history = Ok (None, w') /\
    trace w'
      = [ EvOpenAI "k" "https://api.perplexity.ai";
          EvCreate "sonar-pro"
            [ {| role := "system"; content := PyStr "Be precise and concise." |};
              {| role := "user";
                 content := PyStr ("Context from PDF:" +:+ nl +:+ "DOC" +:+ nl +:+ nl +:+ "first") |};
              {| role := "assistant"; content := PyStr "answer" |};
              {| role := "user"; content := PyStr "second" |} ] true ] ++ evs /\
    read_messages (heap w') 0
      = Some [ {| role := "user"; content := PyStr "first" |};
               {| role := "assistant"; content := PyStr "answer" |};
               {| role := "user"; content := PyStr "second" |};
               {| role := "assistant"; content := PyStr "About 100 billion." |} ].
Proof.
  assert (Henv : Examples.environ_k !! "PERPLEXITY_API_KEY" = Some "k")
    by (vm_compute; reflexivity).
  assert (Hkey : "k" <> "") by discriminate.
  assert (Hfuel : 7 + 1 < 10) by lia.
  destruct (document_context_goes_to_first_user_message_only 10 Examples.environ_k
              (fun _ _ => inr Examples.galaxy) (Examples.session "DOC") (PyStr "second")
              Examples.w_history
              [ {| role := "user"; content := PyStr "first" |};
                {| role := "assistant"; content := PyStr "answer" |} ]
              "k" Examples.galaxy
              eq_refl eq_refl Henv Hkey eq_refl Hfuel)
    as [(w' & evs & reply & Hrun & Htrace & _ & Hstored) _].
  pose proof Hrun as Hrun'. vm_compute in Hrun'. injection Hrun' as <-.
  eexists _, evs. split; [exact Hrun|]. split; [exact Htrace|].
  vm_compute. reflexivity.
Defined.

Lemma chat_request_messages_witness :
  exists r w' evs,
    PerplexityClient.next
      (PerplexityClient.Created (Examples.client_of Examples.galaxy) (PyStr "ignored") PyNone
         (PyStr "ignored too") (Some 0) false) Examples.w_history = Ok (r, w') /\
    trace w' = EvCreate "sonar"
                 [ {| role := "user"; content := PyStr "first" |};
                   {| role := "assistant"; content := PyStr "answer" |} ] false :: evs /\
    heap w' = heap Examples.w_history.
Proof.
  destruct (chat_request_messages (Examples.client_of Examples.galaxy) (PyStr "ignored") PyNone
              (PyStr "ignored too") (Some 0) false Examples.w_history
              [ {| role := "user"; content := PyStr "first" |};
                {| role := "assistant"; content := PyStr "answer" |} ] eq_refl)
    as (r & w' & evs & Hrun & Htrace & _ & Hheap).
  exists r, w', evs. split; [exact Hrun|]. split; [exact Htrace|].
  apply Hheap. eexists. reflexivity.
Defined.

Lemma stream_concatenation_equals_buffered_content_witness :
  exists fs w1 w2,
    iterate PerplexityClient.next 8
            (PerplexityClient.Created (Examples.client_of Examples.galaxy)
               (PyStr Examples.question) PyNone PyNone None true) [] Examples.w0
      = Ok ((fs, StopIteration PyNone), w1) /\
    iterate PerplexityClient.next 1
            (PerplexityClient.Created (Examples.client_of Examples.galaxy)
               (PyStr Examples.question) PyNone PyNone None false) [] Examples.w0
      = Ok (([], StopIteration (PyStr (join fs))), w2).
Proof.
  destruct (stream_concatenation_equals_buffered_content (Examples.client_of Examples.galaxy)
              (PyStr Examples.question) PyNone PyNone None Examples.w0
              (synthesized PyNone (PyStr Examples.question)) Examples.galaxy_chunks
              {| choices := [ {| message_content := PyStr "About 100 billion." |} ] |}
              {| message_content := PyStr "About 100 billion." |} []
              eq_refl eq_refl eq_refl eq_refl eq_refl) as (fs & w1 & w2 & Hstream & Hbuffered).
  exists fs, w1, w2. split.
  - apply Hstream. cbn. lia.
  - apply Hbuffered. lia.
Defined.

Lemma stream_yields_one_fragment_per_content_delta_witness :
  exists fs w',
    iterate PerplexityClient.next 8
            (PerplexityClient.Created (Examples.client_of Examples.galaxy)
               (PyStr Examples.question) PyNone PyNone None true) [] Examples.w0
      = Ok ((fs, StopIteration PyNone), w') /\
    delivered Examples.galaxy_chunks fs /\
    Forall (fun s => s <> "") fs.
Proof.
  destruct (stream_yields_one_fragment_per_content_delta (Examples.client_of Examples.galaxy)
              (PyStr Examples.question) PyNone PyNone None Examples.w0
              (synthesized PyNone (PyStr Examples.question))
              {| chunks := Examples.galaxy_chunks; failure := None |}
              eq_refl eq_refl) as (fs & w' & Hrun & Hdelivered & Hnonempty).
  exists fs, w'. split; [|split; assumption].
  apply (Hrun 8). cbn. lia.
Defined.

Lemma effective_model_and_system_prompt_witness :
  exists r w' evs,
    PerplexityClient.next
      (PerplexityClient.Created (Examples.client_of Examples.galaxy) (PyStr Examples.question)
         (PyStr "") (PyStr "") None false) Examples.w0 = Ok (r, w') /\
    trace w' = EvCreate "sonar"
                 [ {| role := "system"; content := PyStr "Be precise and concise." |};
                   {| role := "user"; content := PyStr Examples.question |} ] false :: evs.
Proof.
  destruct (effective_model_and_system_prompt (Examples.client_of Examples.galaxy)
              (PyStr Examples.question) (PyStr "") (PyStr "") None false Examples.w0
              [ {| role := "system"; content := PyStr "Be precise and concise." |};
                {| role := "user"; content := PyStr Examples.question |} ] eq_refl)
    as (r & w' & evs & Hrun & Htrace & _).
  exists r, w', evs. split; [exact Hrun|exact Htrace].
Defined.

Lemma chat_logs_and_reraises_witness :
  exists w',
    iterate PerplexityClient.next 3
            (PerplexityClient.Created (Examples.client_of Examples.flaky)
               (PyStr Examples.question) PyNone PyNone None true) [] Examples.w0
      = Ok ((["About "; "100"], Raise Examples.timed_out), w') /\
    trace w'
      = [ EvCreate "sonar"
            [ {| role := "system"; content := PyStr "Be precise and concise." |};
              {| role := "user"; content := PyStr Examples.question |} ] true;
          EvPrint "An unexpected error occurred: timed out" ].
Proof.
  destruct (chat_logs_and_reraises (Examples.client_of Examples.flaky)
              (PyStr Examples.question) PyNone PyNone None true Examples.w0
              (synthesized PyNone (PyStr Examples.question)) Examples.timed_out
              [Examples.text_chunk "About "; Examples.text_chunk "100"]
              eq_refl
              (raises_mid_stream Examples.flaky "sonar"
                 (synthesized PyNone (PyStr Examples.question)) Examples.timed_out
                 [Examples.text_chunk "About "; Examples.text_chunk "100"] eq_refl))
    as (fs & w' & Hrun & Htrace & _).
  exists w'. split; [|exact Htrace].
  pose proof (Hrun 3 ltac:(cbn; lia)) as H3.
  pose proof H3 as H3'. vm_compute in H3'. injection H3' as <- _. exact H3.
Defined.

(** * Further properties of the code *)

(** ** Construction and the model of a request *)

Lemma or_str_nonempty (v : Py.value) (fallback : string) :
  fallback <> "" -> Py.or_str v fallback <> "".
Proof.
  intros H. rewrite or_str_nonempty_or. destruct v as [|s]; [exact H|].
  unfold nonempty_or. now destruct (decide (s = "")).
Qed.

Lemma truthy_inv (v : Py.value) :
  Py.truthy v = true -> exists s, v = PyStr s /\ s <> "".
Proof.
  destruct v as [|s]; [discriminate|]. cbn. intros H. exists s. split; [reflexivity|].
  intros ->. discriminate.
Qed.

Lemma init_default_model_nonempty environ OpenAI api_key base_url default_model w w' c :
  PerplexityClient.__init__ environ OpenAI api_key base_url default_model w = Ok (inr c, w') ->
  PerplexityClient.default_model c <> "".
Proof.
  unfold PerplexityClient.__init__.
  destruct (Py.truthy (Py.or_ api_key _)); cbn [negb]; [|discriminate].
  rewrite bind_emit. destruct (OpenAI _ _) as [e|handle].
  - rewrite bind_emit. discriminate.
  - intros [= <- _]. cbn. now apply or_str_nonempty.
Qed.

(** X1. A client that [__init__] returns has a non-empty key, base URL and
    default model, and its handle is the one [OpenAI] built for that key
    and URL; the only effect of the construction is the building of the
    handle. *)
Theorem init_client_invariant
    (environ : gmap string string) (OpenAI : string -> string -> Py.exn + Provider)
    (api_key base_url default_model : Py.value) (w w' : World) (c : PerplexityClient.t) :
  PerplexityClient.__init__ environ OpenAI api_key base_url default_model w = Ok (inr c, w') ->
  PerplexityClient.api_key c <> "" /\
  PerplexityClient.base_url c <> "" /\
  PerplexityClient.default_model c <> "" /\
  OpenAI (PerplexityClient.api_key c) (PerplexityClient.base_url c)
    = inr (PerplexityClient.client c) /\
  w' = add_events w [EvOpenAI (PerplexityClient.api_key c) (PerplexityClient.base_url c)].
Proof.
  unfold PerplexityClient.__init__.
  destruct (Py.truthy (Py.or_ api_key _)) eqn:Hkey; cbn [negb]; [|discriminate].
  apply truthy_inv in Hkey as (key & -> & Hne). cbn [Py.str].
  rewrite bind_emit.
  destruct (OpenAI key (Py.or_str base_url PerplexityClient.DEFAULT_BASE_URL)) as [e|handle] eqn:Hopen.
  - rewrite bind_emit. discriminate.
  - intros [= <- <-]. cbn. repeat split; try assumption.
    + now apply or_str_nonempty.
    + now apply or_str_nonempty.
Qed.

(** X2. Whatever [model] option a call passes, the request of a client
    that [__init__] returned names a non-empty model. *)
Theorem constructed_client_requests_nonempty_model
    (environ : gmap string string) (OpenAI : string -> string -> Py.exn + Provider)
    (api_key base_url default_model : Py.value) (w0 w1 : World) (c : PerplexityClient.t)
    (message model system_prompt : Py.value) (messages : option loc) (stream : bool)
    (w : World) (body : list Message) :
  PerplexityClient.__init__ environ OpenAI api_key base_url default_model w0 = Ok (inr c, w1) ->
  request_body (heap w) system_prompt message messages = Some body ->
  exists r w' evs selected,
    PerplexityClient.next
      (PerplexityClient.Created c message model system_prompt messages stream) w = Ok (r, w') /\
    trace w' = trace w ++ EvCreate selected body stream :: evs /\
    selected <> "".
Proof.
  intros Hinit Hbody.
  pose proof (init_default_model_nonempty _ _ _ _ _ _ _ _ Hinit) as Hmodel.
  destruct (first_resumption_request c message model system_prompt messages stream w body Hbody)
    as (r & w' & evs & Hrun & Htrace & _).
  exists r, w', evs, (Py.or_str model (PerplexityClient.default_model c)).
  split; [exact Hrun|]. split; [exact Htrace|]. now apply or_str_nonempty.
Qed.

(** ** Edges of [chat] *)

(** X3. A buffered call whose completion has no choice fails on
    [response.choices[0]]: the response is printed, then the [IndexError]
    is logged as an unexpected error and raised. *)
Theorem buffered_call_without_choice_raises
    (self : PerplexityClient.t) (message model system_prompt : Py.value)
    (messages : option loc) (w : World) (body : list Message) (response : ChatCompletion) :
  request_body (heap w) system_prompt message messages = Some body ->
  create (PerplexityClient.client self)
         (Py.or_str model (PerplexityClient.default_model self)) body = inr response ->
  choices response = [] ->
  exists w',
    (forall fuel, 0 < fuel ->
        iterate PerplexityClient.next fuel
                (PerplexityClient.Created self message model system_prompt messages false) [] w
          = Ok (([], Raise (Exn IndexError "list index out of range")), w')) /\
    trace w' = trace w ++
      [ EvCreate (Py.or_str model (PerplexityClient.default_model self)) body false;
        EvPrintResponse response;
        EvPrint "An unexpected error occurred: list index out of range" ].
Proof.
  intros Hbody Hcreate Hchoices. eexists. split.
  - intros fuel Hfuel. destruct fuel as [|fuel]; [lia|].
    apply iterate_last with (g' := PerplexityClient.Finished); [|discriminate].
    cbn [PerplexityClient.next]. rewrite (start_eq _ _ _ _ _ _ _ _ Hbody).
    unfold after_create. cbv zeta. rewrite Hcreate, bind_emit, Hchoices.
    apply on_exception_eq.
  - cbn. now rewrite <- !app_assoc.
Qed.

Lemma stream_loop_final cs fail w r g w' :
  PerplexityClient.stream_loop cs fail w = Ok ((r, g), w') ->
  (forall s, r <> Yield s) -> g = PerplexityClient.Finished.
Proof.
  induction cs as [|c cs IH]; cbn [PerplexityClient.stream_loop].
  - destruct fail as [e|].
    + rewrite on_exception_eq. now intros [= <- <- <-].
    + now intros [= <- <- <-].
  - destruct (PerplexityClient.chunk_yield c) as [s|]; [|exact IH].
    intros [= <- <- <-] H. now destruct (H s).
Qed.

Lemma stream_loop_started cs fail w r g w' :
  PerplexityClient.stream_loop cs fail w = Ok ((r, g), w') -> started g = true.
Proof.
  induction cs as [|c cs IH]; cbn [PerplexityClient.stream_loop].
  - destruct fail as [e|].
    + rewrite on_exception_eq. now intros [= <- <- <-].
    + now intros [= <- <- <-].
  - destruct (PerplexityClient.chunk_yield c) as [s|]; [|exact IH].
    now intros [= <- <- <-].
Qed.

Lemma after_create_final self model stream body w r g w' :
  after_create self model stream body w = Ok ((r, g), w') ->
  started g = true /\ ((forall s, r <> Yield s) -> g = PerplexityClient.Finished).
Proof.
  unfold after_create. destruct stream.
  - destruct (create_stream _ _ _) as [e|response].
    + rewrite on_exception_eq. now intros [= <- <- <-].
    + intros H. split; [exact (stream_loop_started _ _ _ _ _ _ H)|].
      exact (stream_loop_final _ _ _ _ _ _ H).
  - destruct (create _ _ _) as [e|response].
    + rewrite on_exception_eq. now intros [= <- <- <-].
    + rewrite bind_emit. destruct (choices response).
      * rewrite on_exception_eq. now intros [= <- <- <-].
      * now intros [= <- <- <-].
Qed.

Lemma start_inv self message model system_prompt messages stream w x w' :
  PerplexityClient.start self message model system_prompt messages stream w = Ok (x, w') ->
  exists body,
    request_body (heap w) system_prompt message messages = Some body /\
    after_create self model stream body
      (request_world w self message model system_prompt messages stream body) = Ok (x, w').
Proof.
  intros H.
  destruct (request_body (heap w) system_prompt message messages) as [body|] eqn:Hbody.
  - exists body. split; [reflexivity|]. now rewrite <- (start_eq _ _ _ _ _ _ _ _ Hbody).
  - destruct messages as [l|]; [|discriminate]. cbn [request_body] in Hbody.
    unfold PerplexityClient.start in H. rewrite bind_ret in H.
    unfold get_messages, bind, lift_read in H. now rewrite Hbody in H.
Qed.

Lemma next_final g w r g' w' :
  PerplexityClient.next g w = Ok ((r, g'), w') ->
  started g' = true /\ ((forall s, r <> Yield s) -> g' = PerplexityClient.Finished).
Proof.
  destruct g as [self message model system_prompt messages stream|cs fail|];
    cbn [PerplexityClient.next].
  - intros H. apply start_inv in H as (body & _ & H). exact (after_create_final _ _ _ _ _ _ _ _ H).
  - intros H. split; [exact (stream_loop_started _ _ _ _ _ _ H)|].
    exact (stream_loop_final _ _ _ _ _ _ H).
  - now intros [= <- <- <-].
Qed.

(** X4. The generator of [chat] is single-pass: once a resumption has
    ended the iteration, by [StopIteration] or by an exception, every later
    resumption gives [StopIteration(None)] and has no effect. *)
Theorem chat_generator_is_single_pass
    (g g' : PerplexityClient.frame) (w w' : World) (r : Py.next_result) :
  PerplexityClient.next g w = Ok ((r, g'), w') ->
  (forall s, r <> Yield s) ->
  forall w2, PerplexityClient.next g' w2 = Ok ((StopIteration PyNone, g'), w2).
Proof.
  intros H Hr w2. destruct (next_final _ _ _ _ _ H) as [_ Hfinal].
  now rewrite (Hfinal Hr).
Qed.

Lemma requests_app (evs evs' : list Event) :
  requests (evs ++ evs') = requests evs + requests evs'.
Proof. unfold requests. now rewrite filter_app, length_app. Qed.

Lemma requests_none (evs : list Event) :
  forallb (fun ev => negb (is_request ev)) evs = true -> requests evs = 0.
Proof.
  unfold requests. induction evs as [|ev evs IH]; [reflexivity|].
  cbn [forallb]. intros [Hev Hevs]%andb_true_iff.
  rewrite filter_cons. destruct (decide (is_request ev = true)) as [E|E].
  - rewrite E in Hev. discriminate.
  - now apply IH.
Qed.

Lemma requests_cons_create m b s evs :
  requests (EvCreate m b s :: evs) = S (requests evs).
Proof. reflexivity. Qed.

Lemma next_started_requests g w x w' :
  started g = true ->
  PerplexityClient.next g w = Ok (x, w') -> requests (trace w') = requests (trace w).
Proof.
  destruct g as [| cs fail |]; [discriminate| |]; intros _; cbn [PerplexityClient.next].
  - intros H. destruct (stream_loop_events cs fail w) as (r & w1 & evs & Hrun & _ & Htrace & Hevs).
    rewrite Hrun in H. injection H as _ <-.
    rewrite Htrace, requests_app, (requests_none _ Hevs). lia.
  - now intros [= _ <-].
Qed.

Lemma iterate_started_requests fuel : forall g (acc : list string) w x w',
  started g = true ->
  iterate PerplexityClient.next fuel g acc w = Ok (x, w') ->
  requests (trace w') = requests (trace w).
Proof.
  induction fuel as [|fuel IH]; intros g acc w x w' Hg; [discriminate|].
  cbn [iterate]. unfold bind at 1.
  destruct (PerplexityClient.next g w) as [[[r g1] w1]| |] eqn:Hnext; try discriminate.
  cbn [fst snd]. pose proof (next_started_requests _ _ _ _ Hg Hnext) as Hw1.
  destruct (next_final _ _ _ _ _ Hnext) as [Hg1 _].
  destruct r as [s|v|e].
  - intros H. rewrite <- Hw1. exact (IH _ _ _ _ _ Hg1 H).
  - now intros [= _ <-].
  - now intros [= _ <-].
Qed.

Lemma iterate_requests_once
    (self : PerplexityClient.t) (message model system_prompt : Py.value)
    (messages : option loc) (stream : bool) (fuel : nat) (w w' : World)
    (fs : list string) (r : Py.next_result) :
  iterate PerplexityClient.next fuel
          (PerplexityClient.Created self message model system_prompt messages stream) [] w
    = Ok ((fs, r), w') ->
  requests (trace w') = S (requests (trace w)).
Proof.
  destruct fuel as [|fuel]; [discriminate|].
  cbn [iterate]. unfold bind at 1.
  destruct (PerplexityClient.next _ w) as [[[r1 g1] w1]| |] eqn:Hnext; try discriminate.
  cbn [fst snd].
  assert (Hw1 : requests (trace w1) = S (requests (trace w))).
  { pose proof Hnext as H. cbn [PerplexityClient.next] in H.
    apply start_inv in H as (body & Hbody & _).
    destruct (first_resumption_request self message model system_prompt messages stream w body Hbody)
      as (r2 & w2 & evs & Hrun & Htrace & Hevs & _).
    rewrite Hnext in Hrun. injection Hrun as _ <-.
    rewrite Htrace, requests_app.
    rewrite requests_cons_create, (requests_none _ Hevs). lia. }
  destruct (next_final _ _ _ _ _ Hnext) as [Hg1 _].
  destruct r1 as [s|v|e].
  - intros H. rewrite <- Hw1. exact (iterate_started_requests _ _ _ _ _ _ Hg1 H).
  - intros [= _ _ <-]. exact Hw1.
  - intros [= _ _ <-]. exact Hw1.
Qed.

Lemma next_started_total g w :
  started g = true ->
  exists r g' w',
    PerplexityClient.next g w = Ok ((r, g'), w') /\
    started g' = true /\ requests (trace w') = requests (trace w).
Proof.
  intros Hg.
  assert (Hrun : exists x w', PerplexityClient.next g w = Ok (x, w')).
  { destruct g as [| cs fail |]; [discriminate| |].
    - destruct (stream_loop_events cs fail w) as (x & w' & _ & Hrun & _). now exists x, w'.
    - now eexists _, _. }
  destruct Hrun as ([r g'] & w' & Hrun). exists r, g', w'. split; [exact Hrun|]. split.
  - exact (proj1 (next_final _ _ _ _ _ Hrun)).
  - exact (next_started_requests _ _ _ _ Hg Hrun).
Qed.

(** Iterating a generator of [chat] ends, whatever the provider answers. *)
Lemma iterate_chat_total self message model system_prompt messages (stream : bool) w body :
  request_body (heap w) system_prompt message messages = Some body ->
  exists n fs r w',
    forall fuel, n <= fuel ->
      iterate PerplexityClient.next fuel
              (PerplexityClient.Created self message model system_prompt messages stream) [] w
        = Ok ((fs, r), w').
Proof.
  intros Hbody. destruct stream.
  - destruct (create_stream (PerplexityClient.client self)
                (Py.or_str model (PerplexityClient.default_model self)) body)
      as [e|response] eqn:Hcreate.
    + exists 1. eexists _, _, _. intros fuel Hfuel.
      apply (iterate_chat_refused self message model system_prompt messages w body Hbody true e);
        [exact Hcreate|lia].
    + exists (S (length (chunks response))). eexists _, _, _. intros fuel Hfuel.
      apply (iterate_chat_stream self message model system_prompt messages w body Hbody
               response fuel []); [exact Hcreate|lia].
  - destruct (create (PerplexityClient.client self)
                (Py.or_str model (PerplexityClient.default_model self)) body)
      as [e|response] eqn:Hcreate.
    + exists 1. eexists _, _, _. intros fuel Hfuel.
      apply (iterate_chat_refused self message model system_prompt messages w body Hbody false e);
        [exact Hcreate|lia].
    + destruct (choices response) as [|c0 rest] eqn:Hchoices.
      * exists 1. eexists _, (Raise (Exn IndexError "list index out of range")), _.
        intros [|fuel] Hfuel; [lia|].
        apply iterate_last with (g' := PerplexityClient.Finished); [|discriminate].
        cbn [PerplexityClient.next]. rewrite (start_eq _ _ _ _ _ _ _ _ Hbody).
        unfold after_create. cbv zeta. rewrite Hcreate, bind_emit, Hchoices.
        apply on_exception_eq.
      * exists 1. eexists _, _, _. intros fuel Hfuel.
        apply (iterate_chat_buffered self message model system_prompt messages w body Hbody
                 response c0 rest fuel []); [exact Hcreate|exact Hchoices|lia].
Qed.

(** X5. A generator of [chat] issues exactly one request, streaming or
    not and whatever the provider answers: its first resumption issues one,
    no resumption of a started generator issues any, and a run to
    completion, which takes finitely many resumptions, leaves exactly one
    more request in the trace. *)
Theorem chat_iteration_issues_one_request
    (self : PerplexityClient.t) (message model system_prompt : Py.value)
    (messages : option loc) (stream : bool) (w : World) (body : list Message) :
  request_body (heap w) system_prompt message messages = Some body ->
  (exists r g1 w1,
      PerplexityClient.next
        (PerplexityClient.Created self message model system_prompt messages stream) w
        = Ok ((r, g1), w1) /\
      started g1 = true /\ requests (trace w1) = S (requests (trace w))) /\
  (forall g w2,
      started g = true ->
      exists r g' w',
        PerplexityClient.next g w2 = Ok ((r, g'), w') /\
        started g' = true /\ requests (trace w') = requests (trace w2)) /\
  (exists n fs r w',
      (forall fuel, n <= fuel ->
          iterate PerplexityClient.next fuel
                  (PerplexityClient.Created self message model system_prompt messages stream) [] w
            = Ok ((fs, r), w')) /\
      requests (trace w') = S (requests (trace w))).
Proof.
  intros Hbody. split; [|split].
  - destruct (first_resumption_request self message model system_prompt messages stream w body Hbody)
      as ([r g1] & w1 & evs & Hrun & Htrace & Hevs & _).
    exists r, g1, w1. split; [exact Hrun|]. split.
    + exact (proj1 (next_final _ _ _ _ _ Hrun)).
    + rewrite Htrace, requests_app, requests_cons_create, (requests_none _ Hevs). lia.
  - intros g w2 Hg. now apply next_started_total.
  - destruct (iterate_chat_total self message model system_prompt messages stream w body Hbody)
      as (n & fs & r & w' & Hrun).
    exists n, fs, r, w'. split; [exact Hrun|].
    exact (iterate_requests_once _ _ _ _ _ _ _ _ _ _ _ (Hrun n (le_n n))).
Qed.

(** ** [stream_perplexity_response] in both modes *)

Lemma spr_buffered_first client msgs model w body :
  read_messages (heap w) msgs = Some body ->
  App.next (App.Created client msgs model false) w
    = App.resume (PerplexityClient.Created client PyNone (PyStr model) PyNone (Some msgs) false) w /\
  PerplexityClient.next
      (PerplexityClient.Created client PyNone (PyStr model) PyNone (Some msgs) false) w
    = after_create client (PyStr model) false body
        (add_events w [EvCreate (Py.or_str (PyStr model) (PerplexityClient.default_model client))
                                body false]).
Proof.
  intros Hbody. split; [reflexivity|]. cbn [PerplexityClient.next].
  now rewrite (start_eq client PyNone (PyStr model) PyNone (Some msgs) false w body Hbody).
Qed.

(** X6. Iterating [stream_perplexity_response] never ends with an
    exception, with [stream=True] or [stream=False] and whatever the
    provider does: it ends with [StopIteration] after finitely many
    resumptions. *)
Theorem stream_perplexity_response_never_raises
    (client : PerplexityClient.t) (msgs : loc) (model : string) (stream : bool)
    (w : World) (body : list Message) :
  read_messages (heap w) msgs = Some body ->
  exists n fs w',
    forall fuel, n <= fuel ->
      iterate App.next fuel (App.Created client msgs model stream) [] w
        = Ok ((fs, StopIteration PyNone), w').
Proof.
  intros Hbody. destruct stream.
  - exists (length (chunks (as_stream
                (create_stream (PerplexityClient.client client)
                   (Py.or_str (PyStr model) (PerplexityClient.default_model client)) body))) + 2).
    eexists _, _. intros fuel Hfuel.
    apply (iterate_spr_created client msgs model fuel w body Hbody). lia.
  - destruct (spr_buffered_first client msgs model w body Hbody) as [Hfirst Hinner].
    destruct (after_create_events client (PyStr model) false body
                (add_events w [EvCreate (Py.or_str (PyStr model)
                                           (PerplexityClient.default_model client)) body false]))
      as ([r g] & w1 & evs & Hrun & _).
    rewrite <- Hinner in Hrun.
    assert (Hno : forall s, r <> Yield s).
    { cbn [PerplexityClient.next] in Hrun. exact (start_buffered_no_yield _ _ _ _ _ _ _ _ _ Hrun). }
    destruct r as [s|v|e]; [now destruct (Hno s)| |].
    + exists 1, [], w1. intros [|fuel] Hfuel; [lia|].
      rewrite iterate_step with (r := StopIteration PyNone) (g' := App.Finished) (w' := w1);
        [reflexivity|].
      rewrite Hfirst. exact (resume_eq _ _ _ _ _ Hrun).
    + exists 2, [error_fragment e], w1. intros [|[|fuel]] Hfuel; [lia|lia|].
      rewrite iterate_step with (r := Yield (error_fragment e)) (g' := App.AtYieldError) (w' := w1).
      2:{ rewrite Hfirst. exact (resume_eq _ _ _ _ _ Hrun). }
      reflexivity.
Qed.


(** ** The chat turn: what is stored, shown and requested *)

Lemma stream_events_last fs : forall text fail,
  received fs fail <> [] ->
  last (stream_events text fs fail)
    = Some (EvMarkdown (text +:+ join (received fs fail))).
Proof.
  induction fs as [|f fs IH]; intros text fail Hne.
  - destruct fail as [e|]; [|now destruct Hne].
    cbn. now rewrite append_nil_r.
  - cbn [stream_events].
    destruct (received fs fail) as [|x xs] eqn:Hrec.
    + destruct fs; [|discriminate Hrec]. destruct fail; [discriminate Hrec|].
      cbn. now rewrite append_nil_r.
    + change (received (f :: fs) fail) with (f :: received fs fail).
      rewrite last_cons, IH by (rewrite Hrec; discriminate).
      cbn [join foldr]. fold (join (received fs fail)). now rewrite append_assoc.
Qed.

Lemma stream_events_nil text fs :
  received fs None = [] -> stream_events text fs None = [].
Proof. destruct fs; [reflexivity|discriminate]. Qed.

Lemma in_turns_app (u a : Message) :
  role u = "user" -> role a = "assistant" ->
  forall ms, (in_turns ms -> in_turns (ms ++ [u; a])) /\
             (forall x, in_turns (x :: ms) -> in_turns (x :: ms ++ [u; a])).
Proof.
  intros Hu Ha. induction ms as [|m ms [IH1 IH2]].
  - split; [now cbn|]. intros x [].
  - split; [apply IH2|].
    intros x (Hx & Hm & Hms). cbn. now auto.
Qed.

Lemma rewrite_first_user_roles pdf ms :
  role <$> rewrite_first_user pdf ms = role <$> ms.
Proof.
  induction ms as [|m ms IH]; [reflexivity|]. cbn [rewrite_first_user].
  destruct (String.eqb_spec (role m) "user") as [Hu|Hu].
  - rewrite !fmap_cons. now rewrite Hu.
  - rewrite !fmap_cons. now rewrite IH.
Qed.

Lemma outgoing_roles pdf ms : role <$> outgoing pdf ms = role <$> ms.
Proof. unfold outgoing. destruct (String.eqb pdf ""); [reflexivity|apply rewrite_first_user_roles]. Qed.

(** The turn up to the construction of the client: the prompt is stored,
    and a failed construction ends the turn there. *)
Lemma chat_turn_until_client fuel environ OpenAI ss prompt w hist :
  Py.truthy prompt = true ->
  read_messages (heap w) (App.messages ss) = Some hist ->
  exists w1,
    trace w1 = trace w /\
    read_messages (heap w1) (App.messages ss)
      = Some (hist ++ [ {| role := "user"; content := prompt |} ]) /\
    forall e w2,
      PerplexityClient.__init__ environ OpenAI PyNone PyNone PyNone w1 = Ok (inl e, w2) ->
      App.chat_turn fuel environ OpenAI ss prompt w = Ok (Some e, w2).
Proof.
  intros Hprompt Hhist.
  destruct (append_message_spec _ {| role := "user"; content := prompt |} _ _ Hhist)
    as (w1 & Hrun1 & Htr1 & Hr1 & _).
  exists w1. split; [exact Htr1|]. split; [exact Hr1|].
  intros e w2 Hinit. unfold App.chat_turn. rewrite Hprompt.
  unfold bind at 1 2.
  change (alloc (ODict {| role := "user"; content := prompt |}) w)
    with (Ok (length (heap w), {| heap := heap w ++ [ODict {| role := "user"; content := prompt |}];
                                  trace := trace w |})).
  cbv beta iota.
  unfold bind at 1 in Hrun1. cbv beta iota in Hrun1.
  change (alloc (ODict {| role := "user"; content := prompt |}) w)
    with (Ok (length (heap w), {| heap := heap w ++ [ODict {| role := "user"; content := prompt |}];
                                  trace := trace w |})) in Hrun1.
  cbv beta iota in Hrun1. rewrite Hrun1.
  unfold bind at 1. now rewrite Hinit.
Qed.

(** X8. A turn with no resolvable API key ends with the [ValueError] of
    the constructor before anything is requested or shown; the prompt has
    already been appended to the stored conversation, which is left without
    an assistant message for it. *)
Theorem turn_without_api_key
    (fuel : nat) (environ : gmap string string)
    (OpenAI : string -> string -> Py.exn + Provider)
    (ss : App.SessionState) (prompt : Py.value) (w : World) (hist : list Message) :
  Py.truthy prompt = true ->
  read_messages (heap w) (App.messages ss) = Some hist ->
  environ !! "PERPLEXITY_API_KEY" = None \/ environ !! "PERPLEXITY_API_KEY" = Some "" ->
  exists w',
    App.chat_turn fuel environ OpenAI ss prompt w
      = Ok (Some (Exn ValueError PerplexityClient.KEY_MISSING), w') /\
    trace w' = trace w /\
    read_messages (heap w') (App.messages ss)
      = Some (hist ++ [ {| role := "user"; content := prompt |} ]).
Proof.
  intros Hprompt Hhist Henv.
  destruct (chat_turn_until_client fuel environ OpenAI ss prompt w hist Hprompt Hhist)
    as (w1 & Htr & Hstored & Hfail).
  exists w1. split; [|split; assumption].
  apply Hfail. unfold PerplexityClient.__init__, PerplexityClient.environ_get.
  destruct Henv as [-> | ->]; reflexivity.
Qed.

(** X9. A turn whose client handle cannot be built ends with the
    constructor's exception, after the constructor has printed it; no
    request is issued, and the prompt stays in the stored conversation
    without an assistant message. *)
Theorem turn_with_failing_handle
    (fuel : nat) (environ : gmap string string)
    (OpenAI : string -> string -> Py.exn + Provider)
    (ss : App.SessionState) (prompt : Py.value) (w : World) (hist : list Message)
    (key : string) (e : Py.exn) :
  Py.truthy prompt = true ->
  read_messages (heap w) (App.messages ss) = Some hist ->
  environ !! "PERPLEXITY_API_KEY" = Some key -> key <> "" ->
  OpenAI key PerplexityClient.DEFAULT_BASE_URL = inl e ->
  exists w',
    App.chat_turn fuel environ OpenAI ss prompt w = Ok (Some e, w') /\
    trace w' = trace w ++
      [ EvOpenAI key PerplexityClient.DEFAULT_BASE_URL;
        EvPrint ("Error initializing OpenAI client for Perplexity: " +:+ exn_str e) ] /\
    read_messages (heap w') (App.messages ss)
      = Some (hist ++ [ {| role := "user"; content := prompt |} ]).
Proof.
  intros Hprompt Hhist Henv Hkey Hopen.
  destruct (chat_turn_until_client fuel environ OpenAI ss prompt w hist Hprompt Hhist)
    as (w1 & Htr & Hstored & Hfail).
  eexists. split; [|split].
  - apply Hfail. rewrite (init_resolved _ _ _ _ _ _ key); [| |exact Hkey].
    + change (Py.or_str PyNone PerplexityClient.DEFAULT_BASE_URL)
        with PerplexityClient.DEFAULT_BASE_URL. rewrite Hopen. reflexivity.
    + unfold PerplexityClient.environ_get. now rewrite Henv.
  - cbn [add_events trace]. now rewrite Htr.
  - exact Hstored.
Qed.

Section Turn.

Variables (fuel : nat) (environ : gmap string string).
Variable OpenAI : string -> string -> Py.exn + Provider.
Variables (ss : App.SessionState) (prompt : Py.value) (w : World).
Variables (hist : list Message) (key : string) (handle : Provider).

Hypothesis Hprompt : Py.truthy prompt = true.
Hypothesis Hhist : read_messages (heap w) (App.messages ss) = Some hist.
Hypothesis Henv : environ !! "PERPLEXITY_API_KEY" = Some key.
Hypothesis Hkey : key <> "".
Hypothesis Hopen : OpenAI key PerplexityClient.DEFAULT_BASE_URL = inr handle.

Local Notation "'turn_history'" := (hist ++ [ {| role := "user"; content := prompt |} ]).
Local Notation "'turn_body'" :=
  ({| role := "system"; content := PyStr (App.system_prompt ss) |}
     :: outgoing (App.pdf_content ss) turn_history).
Local Notation "'turn_model'" := (Py.or_str (PyStr (App.model ss)) PerplexityClient.DEFAULT_MODEL).
Local Notation "'turn_response'" := (as_stream (create_stream handle turn_model turn_body)).

Hypothesis Hfuel : length (chunks turn_response) + 1 < fuel.

(** X10. When the stream of a turn completes, the assistant message that
    is stored holds exactly the concatenation of the fragments, in order;
    the turn ends normally. *)
Theorem turn_stores_concatenated_fragments :
  failure turn_response = None ->
  exists w',
    App.chat_turn fuel environ OpenAI ss prompt w = Ok (None, w') /\
    read_messages (heap w') (App.messages ss)
      = Some (turn_history ++
                [ {| role := "assistant";
                     content := PyStr (join (fragments (chunks turn_response))) |} ]).
Proof.
  intros Hok.
  destruct (chat_turn_spec fuel environ OpenAI ss prompt w hist key handle
              Hprompt Hhist Henv Hkey Hopen Hfuel) as (w' & Hrun & Hstored & _).
  exists w'. split; [exact Hrun|]. rewrite Hstored, Hok. unfold received.
  now rewrite app_nil_r.
Qed.

(** X11. What a turn stores is what it last showed: if anything was
    received (a fragment or an error), the last event of the turn is the
    rendering of the stored assistant text; if nothing was received, the
    turn renders nothing and stores an empty assistant message. *)
Theorem turn_stores_last_rendered_text :
  exists text w',
    App.chat_turn fuel environ OpenAI ss prompt w = Ok (None, w') /\
    read_messages (heap w') (App.messages ss)
      = Some (turn_history ++ [ {| role := "assistant"; content := PyStr text |} ]) /\
    (received (fragments (chunks turn_response)) (failure turn_response) <> [] ->
       last (trace w') = Some (EvMarkdown text)) /\
    (received (fragments (chunks turn_response)) (failure turn_response) = [] ->
       text = "" /\
       trace w' = trace w ++ [EvOpenAI key PerplexityClient.DEFAULT_BASE_URL;
                              EvCreate turn_model turn_body true]).
Proof.
  destruct (chat_turn_spec fuel environ OpenAI ss prompt w hist key handle
              Hprompt Hhist Henv Hkey Hopen Hfuel) as (w' & Hrun & Hstored & Htrace).
  eexists _, w'. split; [exact Hrun|]. split; [exact Hstored|]. split.
  - intros Hne. rewrite Htrace, !app_assoc.
    pose proof (stream_events_last (fragments (chunks turn_response)) ""
                  (failure turn_response) Hne) as Hlast.
    destruct (stream_events "" (fragments (chunks turn_response)) (failure turn_response))
      as [|ev evs] eqn:Hevs; [discriminate Hlast|].
    rewrite last_app. now rewrite Hlast.
  - intros Hnil. rewrite Hnil. split; [reflexivity|].
    rewrite Htrace. f_equal.
    destruct (failure turn_response) as [e|] eqn:Hf.
    + unfold received in Hnil. now destruct (fragments (chunks turn_response)).
    + rewrite (stream_events_nil _ _ Hnil). reflexivity.
Qed.

(** X12. A completed turn keeps the stored conversation a sequence of
    (user, assistant) pairs: if it was one before the prompt, it is one
    after the assistant message is stored. *)
Theorem turn_keeps_conversation_in_turns :
  in_turns hist ->
  exists w' stored,
    App.chat_turn fuel environ OpenAI ss prompt w = Ok (None, w') /\
    read_messages (heap w') (App.messages ss) = Some stored /\
    in_turns stored /\ length stored = length hist + 2.
Proof.
  intros Hturns.
  destruct (chat_turn_spec fuel environ OpenAI ss prompt w hist key handle
              Hprompt Hhist Henv Hkey Hopen Hfuel) as (w' & Hrun & Hstored & _).
  eexists w', _. split; [exact Hrun|]. split; [exact Hstored|].
  rewrite <- app_assoc. split.
  - refine (proj1 (in_turns_app {| role := "user"; content := prompt |}
                     {| role := "assistant"; content := _ |} eq_refl eq_refl hist) Hturns).
  - rewrite length_app. reflexivity.
Qed.

(** X13. The request of a turn starts with a system message holding the
    session's system prompt as it is (even empty: the client's default
    prompt plays no part), and the messages after it have the roles of the
    stored conversation, in order: putting the document text in changes no
    role. *)
Theorem turn_request_keeps_roles :
  exists w' evs,
    App.chat_turn fuel environ OpenAI ss prompt w = Ok (None, w') /\
    trace w' = trace w ++ [EvOpenAI key PerplexityClient.DEFAULT_BASE_URL;
                           EvCreate turn_model turn_body true] ++ evs /\
    turn_body !! 0 = Some {| role := "system"; content := PyStr (App.system_prompt ss) |} /\
    role <$> turn_body = "system" :: (role <$> hist) ++ ["user"].
Proof.
  destruct (chat_turn_spec fuel environ OpenAI ss prompt w hist key handle
              Hprompt Hhist Henv Hkey Hopen Hfuel) as (w' & Hrun & _ & Htrace).
  eexists w', _. split; [exact Hrun|]. split; [exact Htrace|]. split; [reflexivity|].
  rewrite fmap_cons, outgoing_roles, fmap_app. reflexivity.
Qed.

(** X14. When the session's model is one of [AVAILABLE_MODELS], the turn
    requests exactly that model: the client's default model is not used. *)
Theorem turn_requests_selected_model :
  App.model ss ∈ App.AVAILABLE_MODELS ->
  exists w' evs,
    App.chat_turn fuel environ OpenAI ss prompt w = Ok (None, w') /\
    trace w' = trace w ++ [EvOpenAI key PerplexityClient.DEFAULT_BASE_URL;
                           EvCreate (App.model ss) turn_body true] ++ evs.
Proof.
  intros Hin.
  destruct (chat_turn_spec fuel environ OpenAI ss prompt w hist key handle
              Hprompt Hhist Henv Hkey Hopen Hfuel) as (w' & Hrun & _ & Htrace).
  eexists w', _. split; [exact Hrun|].
  assert (Hmodel : turn_model = App.model ss).
  { unfold App.AVAILABLE_MODELS in Hin.
    repeat (apply elem_of_cons in Hin as [-> | Hin]; [reflexivity|]).
    now apply elem_of_nil in Hin. }
  rewrite Hmodel in Htrace. exact Htrace.
Qed.

End Turn.

(** ** Session state *)

Lemma set_if_missing_keeps key v (state : gmap string Session.entry) k x :
  state !! k = Some x -> Session.set_if_missing key v state !! k = Some x.
Proof.
  intros H. unfold Session.set_if_missing. destruct (state !! key) eqn:E; [exact H|].
  rewrite lookup_insert_ne; [exact H|]. intros ->. congruence.
Qed.

Lemma set_if_missing_present key v (state : gmap string Session.entry) :
  is_Some (Session.set_if_missing key v state !! key).
Proof.
  unfold Session.set_if_missing. destruct (state !! key) eqn:E.
  - rewrite E. eauto.
  - rewrite lookup_insert_eq. eauto.
Qed.

Lemma set_if_missing_other key v (state : gmap string Session.entry) k :
  k <> key -> Session.set_if_missing key v state !! k = state !! k.
Proof.
  intros H. unfold Session.set_if_missing. destruct (state !! key); [reflexivity|].
  now rewrite lookup_insert_ne.
Qed.

Lemma set_if_missing_id key v (state : gmap string Session.entry) :
  is_Some (state !! key) -> Session.set_if_missing key v state = state.
Proof. intros [x H]. unfold Session.set_if_missing. now rewrite H. Qed.

Lemma init_eq (state : gmap string Session.entry) (w : World) :
  exists state1 w1,
    Session.init state w
      = Ok (Session.set_if_missing "model" (Session.EStr (nth 0 App.AVAILABLE_MODELS ""))
              (Session.set_if_missing "system_prompt" (Session.EStr "Be precise and concise.")
                 (Session.set_if_missing "pdf_content" (Session.EStr "") state1)), w1) /\
    match state !! "messages" with
    | Some _ => state1 = state /\ w1 = w
    | None =>
        state1 = <["messages" := Session.EList (length (heap w))]> state /\
        w1 = {| heap := heap w ++ [OList []]; trace := trace w |}
    end.
Proof.
  unfold Session.init. destruct (state !! "messages") eqn:E.
  - exists state, w. split; [reflexivity|]. now split.
  - eexists _, _. split; [reflexivity|]. now split.
Qed.

Lemma session_init_keeps_entries_aux (state : gmap string Session.entry) (w : World) :
  exists state' w',
    Session.init state w = Ok (state', w') /\
    is_Some (state' !! "messages") /\ is_Some (state' !! "pdf_content") /\
    is_Some (state' !! "system_prompt") /\ is_Some (state' !! "model").
Proof.
  destruct (init_eq state w) as (state1 & w1 & Hrun & H1).
  eexists _, w1. split; [exact Hrun|].
  assert (Hmsg : is_Some (state1 !! "messages")).
  { destruct (state !! "messages") eqn:E.
    - destruct H1 as [-> _]. rewrite E. eauto.
    - destruct H1 as [-> _]. rewrite lookup_insert_eq. eauto. }
  repeat split.
  - destruct Hmsg as [x Hx]. exists x. now do 3 apply set_if_missing_keeps.
  - destruct (set_if_missing_present "pdf_content" (Session.EStr "") state1) as [x Hx].
    exists x. now do 2 apply set_if_missing_keeps.
  - destruct (set_if_missing_present "system_prompt" (Session.EStr "Be precise and concise.")
                (Session.set_if_missing "pdf_content" (Session.EStr "") state1)) as [x Hx].
    exists x. now apply set_if_missing_keeps.
  - apply set_if_missing_present.
Qed.

(** X15. Initialising the session state never overwrites an entry that is
    already there (a re-run of the script keeps the conversation, the
    document, the prompt and the model), leaves every other key alone, and
    afterwards the four keys of the script are all present. *)
Theorem session_init_keeps_entries (state : gmap string Session.entry) (w : World) :
  exists state' w',
    Session.init state w = Ok (state', w') /\
    (forall k x, state !! k = Some x -> state' !! k = Some x) /\
    (forall k, k <> "messages" -> k <> "pdf_content" -> k <> "system_prompt" -> k <> "model" ->
               state' !! k = state !! k) /\
    is_Some (state' !! "messages") /\ is_Some (state' !! "pdf_content") /\
    is_Some (state' !! "system_prompt") /\ is_Some (state' !! "model") /\
    trace w' = trace w.
Proof.
  destruct (init_eq state w) as (state1 & w1 & Hrun & H1).
  eexists _, w1. split; [exact Hrun|].
  assert (Hkeep : forall k x, state !! k = Some x -> state1 !! k = Some x).
  { intros k x Hk. destruct (state !! "messages") eqn:E.
    - destruct H1 as [-> _]. exact Hk.
    - destruct H1 as [-> _]. rewrite lookup_insert_ne; [exact Hk|]. intros <-. congruence. }
  assert (Hmsg : is_Some (state1 !! "messages")).
  { destruct (state !! "messages") eqn:E.
    - destruct H1 as [-> _]. rewrite E. eauto.
    - destruct H1 as [-> _]. rewrite lookup_insert_eq. eauto. }
  assert (Hother : forall k, k <> "messages" -> state1 !! k = state !! k).
  { intros k Hk. destruct (state !! "messages") eqn:E.
    - now destruct H1 as [-> _].
    - destruct H1 as [-> _]. now rewrite lookup_insert_ne. }
  assert (Htrace : trace w1 = trace w).
  { destruct (state !! "messages"); now destruct H1 as [_ ->]. }
  repeat split.
  - intros k x Hk. do 3 apply set_if_missing_keeps. now apply Hkeep.
  - intros k Hm Hp Hs Hmo. rewrite !set_if_missing_other by assumption. now apply Hother.
  - destruct Hmsg as [x Hx]. exists x. now do 3 apply set_if_missing_keeps.
  - destruct (set_if_missing_present "pdf_content" (Session.EStr "") state1) as [x Hx].
    exists x. now do 2 apply set_if_missing_keeps.
  - destruct (set_if_missing_present "system_prompt" (Session.EStr "Be precise and concise.")
                (Session.set_if_missing "pdf_content" (Session.EStr "") state1)) as [x Hx].
    exists x. now apply set_if_missing_keeps.
  - apply set_if_missing_present.
  - exact Htrace.
Qed.

(** X16. Initialising the session state twice is initialising it once:
    on the state and world that one initialisation leaves, a second one
    changes nothing and creates no object. *)
Theorem session_init_idempotent
    (state state' : gmap string Session.entry) (w w' : World) :
  Session.init state w = Ok (state', w') ->
  Session.init state' w' = Ok (state', w').
Proof.
  intros Hrun.
  destruct (session_init_keeps_entries_aux state w) as (s1 & w1 & Hrun1 & Hm & Hp & Hs & Hmo).
  rewrite Hrun in Hrun1. injection Hrun1 as <- <-.
  destruct (init_eq state' w') as (state2 & w2 & Hrun2 & H2).
  destruct Hm as [x Hx]. rewrite Hx in H2. destruct H2 as [-> ->].
  rewrite Hrun2. f_equal. f_equal.
  rewrite (set_if_missing_id "pdf_content") by exact Hp.
  rewrite (set_if_missing_id "system_prompt") by exact Hs.
  now rewrite (set_if_missing_id "model") by exact Hmo.
Qed.

(** X17. When the session state has no conversation yet, initialisation
    stores a reference to a new, empty list object: the stored
    conversation is readable and empty, and no object that existed is
    touched. *)
Theorem session_init_creates_empty_conversation
    (state : gmap string Session.entry) (w : World) :
  state !! "messages" = None ->
  exists state' w',
    Session.init state w = Ok (state', w') /\
    state' !! "messages" = Some (Session.EList (length (heap w))) /\
    read_messages (heap w') (length (heap w)) = Some [] /\
    heap w' = heap w ++ [OList []].
Proof.
  intros Hnone. destruct (init_eq state w) as (state1 & w1 & Hrun & H1).
  rewrite Hnone in H1. destruct H1 as [-> ->].
  eexists _, _. split; [exact Hrun|]. split; [|split; [|reflexivity]].
  - do 3 apply set_if_missing_keeps. apply lookup_insert_eq.
  - cbn [heap]. unfold read_messages. now rewrite read_list_new.
Qed.

(** X18. On a session state that has none of the four keys, initialisation
    gives the chat turn an empty conversation, no document text, the prompt
    "Be precise and concise." and the first of [AVAILABLE_MODELS]. *)
Theorem session_init_defaults (state : gmap string Session.entry) (w : World) :
  state !! "messages" = None -> state !! "pdf_content" = None ->
  state !! "system_prompt" = None -> state !! "model" = None ->
  exists state' w',
    Session.init state w = Ok (state', w') /\
    Session.view state'
      = Some {| App.messages := length (heap w); App.pdf_content := "";
                App.system_prompt := "Be precise and concise."; App.model := "sonar-pro" |} /\
    read_messages (heap w') (length (heap w)) = Some [] /\
    "sonar-pro" ∈ App.AVAILABLE_MODELS.
Proof.
  intros Hm Hp Hs Hmo. destruct (init_eq state w) as (state1 & w1 & Hrun & H1).
  rewrite Hm in H1. destruct H1 as [-> ->].
  eexists _, _. split; [exact Hrun|]. split; [|split].
  - unfold Session.view, Session.set_if_missing.
    rewrite !(lookup_insert_ne _ "messages") by discriminate. rewrite Hp.
    rewrite !(lookup_insert_ne _ "pdf_content") by discriminate.
    rewrite !(lookup_insert_ne _ "messages") by discriminate. rewrite Hs.
    rewrite !(lookup_insert_ne _ "system_prompt") by discriminate.
    rewrite !(lookup_insert_ne _ "pdf_content") by discriminate.
    rewrite !(lookup_insert_ne _ "messages") by discriminate. rewrite Hmo.
    rewrite lookup_insert_eq.
    rewrite !(lookup_insert_ne _ "model") by discriminate. rewrite lookup_insert_eq.
    rewrite !(lookup_insert_ne _ "system_prompt") by discriminate. rewrite lookup_insert_eq.
    rewrite !(lookup_insert_ne _ "pdf_content") by discriminate. rewrite lookup_insert_eq.
    reflexivity.
  - cbn [heap]. unfold read_messages. now rewrite read_list_new.
  - unfold App.AVAILABLE_MODELS. apply elem_of_cons. now left.
Qed.

(** ** The uploaded document *)

Lemma omap_page_text_cons (page : Py.value) (pages : list Py.value) :
  omap page_text (page :: pages)
    = match page_text page with
      | Some t => t :: omap page_text pages
      | None => omap page_text pages
      end.
Proof. reflexivity. Qed.

Lemma or_str_page_text (page : Py.value) :
  Py.or_str page "" = default "" (page_text page).
Proof.
  rewrite or_str_nonempty_or. destruct page as [|s]; [reflexivity|].
  cbn [nonempty_or page_text]. now destruct (decide (s = "")) as [->|Hs].
Qed.

Lemma extract_fold (pages : list Py.value) : forall text,
  foldl (fun text page => text +:+ Py.or_str page "") text pages
    = text +:+ join (omap page_text pages).
Proof.
  induction pages as [|page pages IH]; intros text.
  - cbn. now rewrite append_nil_r.
  - cbn [foldl]. rewrite IH, omap_page_text_cons, or_str_page_text.
    destruct (page_text page) as [t|]; cbn [default].
    + cbn [join foldr]. fold (join (omap page_text pages)). apply append_assoc.
    + now rewrite append_nil_r.
Qed.

(** X19. The extracted text is the concatenation, in page order, of the
    texts of the pages that have one: a page whose extraction gives [None]
    or the empty string adds nothing. Extraction distributes over putting
    page lists one after the other. *)
Theorem extract_text_skips_unreadable_pages (pages : list Py.value) :
  Session.extract_text pages = join (omap page_text pages) /\
  forall more,
    Session.extract_text (pages ++ more)
      = Session.extract_text pages +:+ Session.extract_text more.
Proof.
  unfold Session.extract_text. split.
  - now rewrite extract_fold.
  - intros more. rewrite !extract_fold.
    change ("" +:+ ?x) with x. rewrite omap_app. apply join_app.
Qed.

(** X20. The sidebar preview is the whole text when it has at most 500
    characters (code points); otherwise it is the first 500 characters of
    the text followed by "...". It never has more than 503 characters. *)
Theorem preview_bounds (text : list N) :
  length (Session.preview text) <= 503 /\
  (length text <= 500 -> Session.preview text = text) /\
  (500 < length text ->
   exists first rest,
     text = first ++ rest /\ length first = 500 /\ rest <> [] /\
     Session.preview text = first ++ Session.ellipsis).
Proof.
  unfold Session.preview.
  destruct (Nat.ltb_spec 500 (length text)) as [Hlong|Hshort].
  - split; [|split].
    + rewrite length_app, length_take. cbn [length Session.ellipsis]. lia.
    + lia.
    + intros _. exists (take 500 text), (drop 500 text).
      split; [now rewrite take_drop|]. split; [rewrite length_take; lia|].
      split; [|reflexivity].
      intros Hnil. apply (f_equal length) in Hnil. rewrite length_drop in Hnil.
      cbn [length] in Hnil. lia.
  - split; [|split].
    + rewrite length_app, length_take. cbn [length]. lia.
    + intros _. rewrite app_nil_r. now apply take_ge.
    + lia.
Qed.

(** ** The example run *)

Lemma init_without_key environ OpenAI w :
  environ !! "PERPLEXITY_API_KEY" = None \/ environ !! "PERPLEXITY_API_KEY" = Some "" ->
  PerplexityClient.__init__ environ OpenAI PyNone PyNone PyNone w
    = Ok (inl (Exn ValueError PerplexityClient.KEY_MISSING), w).
Proof.
  intros Henv. unfold PerplexityClient.__init__, PerplexityClient.environ_get.
  destruct Henv as [-> | ->]; reflexivity.
Qed.

Lemma init_with_key environ OpenAI w key :
  environ !! "PERPLEXITY_API_KEY" = Some key -> key <> "" ->
  PerplexityClient.__init__ environ OpenAI PyNone PyNone PyNone w
    = constructed_with OpenAI key PyNone PyNone w.
Proof.
  intros Henv Hkey. rewrite (init_resolved _ _ _ _ _ _ key); [reflexivity| |exact Hkey].
  unfold PerplexityClient.environ_get. now rewrite Henv.
Qed.

Lemma environ_key_cases (environ : gmap string string) :
  (environ !! "PERPLEXITY_API_KEY" = None \/ environ !! "PERPLEXITY_API_KEY" = Some "") \/
  exists key, environ !! "PERPLEXITY_API_KEY" = Some key /\ key <> "".
Proof.
  destruct (environ !! "PERPLEXITY_API_KEY") as [key|]; [|now left; left].
  destruct (decide (key = "")) as [->|Hne]; [now left; right|].
  right. now exists key.
Qed.

(** The line the handlers of the example run print for [e]. *)
Lemma main_after_failed_body repr environ OpenAI w e w1 :
  Main.body repr environ OpenAI w = Ok (inl e, w1) ->
  exists line,
    Main.main repr environ OpenAI w = Ok (tt, add_events w1 [EvPrint line]) /\
    line = match exn_cls e with
           | ValueError => "Configuration Error: " +:+ exn_str e
           | OpenAIError => "API Communication Error: " +:+ exn_str e
           | _ => "An unexpected error occurred in the main execution block: " +:+ exn_str e
           end.
Proof.
  intros Hbody. eexists. split; [|reflexivity].
  unfold Main.main. rewrite (bind_ok _ _ _ _ _ Hbody).
  destruct (exn_cls e); reflexivity.
Qed.

Lemma main_body_cases repr environ OpenAI w :
  (exists e w1, Main.body repr environ OpenAI w = Ok (inl e, w1) /\
                heap w1 = heap w /\ requests (trace w1) = requests (trace w)) \/
  (exists w1, Main.body repr environ OpenAI w = Ok (inr tt, w1) /\
              heap w1 = heap w /\ requests (trace w1) = requests (trace w)).
Proof.
  unfold Main.body.
  destruct (environ_key_cases environ) as [Hnone|(key & Henv & Hkey)].
  - left. eexists _, w. rewrite (bind_ok _ _ _ _ _ (init_without_key environ OpenAI w Hnone)).
    repeat split.
  - pose proof (init_with_key environ OpenAI w key Henv Hkey) as Hinit.
    unfold constructed_with in Hinit.
    destruct (OpenAI key (Py.or_str PyNone PerplexityClient.DEFAULT_BASE_URL)) as [e|handle].
    + left. eexists e, _. rewrite (bind_ok _ _ _ _ _ Hinit). split; [reflexivity|].
      split; [reflexivity|]. cbn [add_events trace]. rewrite requests_app.
      rewrite (requests_none [_; _]) by reflexivity. lia.
    + right. eexists. rewrite (bind_ok _ _ _ _ _ Hinit). split; [reflexivity|].
      split; [reflexivity|]. cbn [add_events trace heap].
      rewrite !requests_app. rewrite !(requests_none [_]) by reflexivity. lia.
Qed.

(** X21. The example run under [__main__] never issues a request to the
    provider, whatever the environment and the provider are: it ends
    normally, and the trace it leaves has as many requests as before. *)
Theorem main_never_issues_a_request
    (repr : PerplexityClient.frame -> string) (environ : gmap string string)
    (OpenAI : string -> string -> Py.exn + Provider) (w : World) :
  exists w',
    Main.main repr environ OpenAI w = Ok (tt, w') /\
    heap w' = heap w /\
    requests (trace w') = requests (trace w).
Proof.
  destruct (main_body_cases repr environ OpenAI w)
    as [(e & w1 & Hbody & Hheap & Hreq)|(w1 & Hbody & Hheap & Hreq)].
  - destruct (main_after_failed_body _ _ _ _ _ _ Hbody) as (line & Hmain & _).
    eexists. split; [exact Hmain|]. cbn [add_events heap trace]. split; [exact Hheap|].
    rewrite requests_app, (requests_none [_]) by reflexivity. lia.
  - exists w1. split; [|split; assumption].
    unfold Main.main. now rewrite (bind_ok _ _ _ _ _ Hbody).
Qed.

(** X22. What the example run prints. Without a resolvable key: the one
    line "Configuration Error: ..." with the constructor's message. With a
    key and a handle: the "Sending message" line and then "Perplexity
    response: " followed by the text of a generator object, not by the
    answer. *)
Theorem main_output
    (repr : PerplexityClient.frame -> string) (environ : gmap string string)
    (OpenAI : string -> string -> Py.exn + Provider) (w : World) :
  (environ !! "PERPLEXITY_API_KEY" = None \/ environ !! "PERPLEXITY_API_KEY" = Some "" ->
   Main.main repr environ OpenAI w
     = Ok (tt, add_events w
                 [EvPrint ("Configuration Error: " +:+ PerplexityClient.KEY_MISSING)])) /\
  (forall key handle,
     environ !! "PERPLEXITY_API_KEY" = Some key -> key <> "" ->
     OpenAI key PerplexityClient.DEFAULT_BASE_URL = inr handle ->
     Main.main repr environ OpenAI w
       = Ok (tt, add_events w
                   [ EvOpenAI key PerplexityClient.DEFAULT_BASE_URL;
                     EvPrint ("Sending message (default model): '" +:+ Main.user_input_1 +:+ "'");
                     EvPrint ("Perplexity response: "
                                +:+ repr (PerplexityClient.Created
                                            {| PerplexityClient.api_key := key;
                                               PerplexityClient.base_url :=
                                                 PerplexityClient.DEFAULT_BASE_URL;
                                               PerplexityClient.default_model :=
                                                 PerplexityClient.DEFAULT_MODEL;
                                               PerplexityClient.client := handle |}
                                            (PyStr Main.user_input_1) PyNone PyNone None false)
                                +:+ nl) ])).
Proof.
  split.
  - intros Hnone. unfold Main.main, Main.body.
    rewrite (bind_ok _ _ _ _ _ (bind_ok _ _ _ _ _ (init_without_key environ OpenAI w Hnone))).
    reflexivity.
  - intros key handle Henv Hkey Hopen.
    pose proof (init_with_key environ OpenAI w key Henv Hkey) as Hinit.
    unfold constructed_with in Hinit.
    change (Py.or_str PyNone PerplexityClient.DEFAULT_BASE_URL)
      with PerplexityClient.DEFAULT_BASE_URL in Hinit.
    rewrite Hopen in Hinit.
    unfold Main.main, Main.body.
    rewrite (bind_ok _ _ _ _ _ (bind_ok _ _ _ _ _ Hinit)).
    unfold add_events. cbn. now rewrite <- !app_assoc.
Qed.

(** ** The further properties at concrete runs *)

Lemma init_client_invariant_witness :
  exists c w',
    PerplexityClient.__init__ Examples.environ_k (fun _ _ => inr Examples.galaxy)
        PyNone (PyStr "") PyNone Examples.w0 = Ok (inr c, w') /\
    PerplexityClient.api_key c <> "" /\ PerplexityClient.base_url c <> "" /\
    PerplexityClient.default_model c <> "".
Proof.
  assert (H : exists c w',
             PerplexityClient.__init__ Examples.environ_k (fun _ _ => inr Examples.galaxy)
               PyNone (PyStr "") PyNone Examples.w0 = Ok (inr c, w'))
    by (vm_compute; eauto).
  destruct H as (c & w' & H). exists c, w'. split; [exact H|].
  destruct (init_client_invariant _ _ _ _ _ _ _ _ H) as (Hk & Hu & Hm & _). auto.
Defined.

Lemma constructed_client_requests_nonempty_model_witness :
  exists c w1 r w' evs selected,
    PerplexityClient.__init__ Examples.environ_k (fun _ _ => inr Examples.galaxy)
        PyNone PyNone (PyStr "") Examples.w0 = Ok (inr c, w1) /\
    PerplexityClient.next
      (PerplexityClient.Created c (PyStr Examples.question) (PyStr "") PyNone (Some 0) true)
      Examples.w_history = Ok (r, w') /\
    trace w' = trace Examples.w_history ++
      EvCreate selected [ {| role := "user"; content := PyStr "first" |};
                          {| role := "assistant"; content := PyStr "answer" |} ] true :: evs /\
    selected <> "".
Proof.
  assert (H : exists c w1,
             PerplexityClient.__init__ Examples.environ_k (fun _ _ => inr Examples.galaxy)
               PyNone PyNone (PyStr "") Examples.w0 = Ok (inr c, w1))
    by (vm_compute; eauto).
  destruct H as (c & w1 & H).
  destruct (constructed_client_requests_nonempty_model _ _ _ _ _ _ _ c
              (PyStr Examples.question) (PyStr "") PyNone (Some 0) true Examples.w_history
              [ {| role := "user"; content := PyStr "first" |};
                {| role := "assistant"; content := PyStr "answer" |} ] H eq_refl)
    as (r & w' & evs & selected & Hrun & Htrace & Hne).
  exists c, w1, r, w', evs, selected. auto.
Defined.

Lemma buffered_call_without_choice_raises_witness :
  exists w',
    iterate PerplexityClient.next 1
            (PerplexityClient.Created (Examples.client_of Scenarios.no_choice)
               (PyStr Examples.question) PyNone PyNone None false) [] Examples.w0
      = Ok (([], Raise (Exn IndexError "list index out of range")), w').
Proof.
  destruct (buffered_call_without_choice_raises (Examples.client_of Scenarios.no_choice)
              (PyStr Examples.question) PyNone PyNone None Examples.w0
              (synthesized PyNone (PyStr Examples.question)) {| choices := [] |}
              eq_refl eq_refl eq_refl) as (w' & Hrun & _).
  exists w'. apply Hrun. lia.
Defined.

Lemma chat_generator_is_single_pass_witness :
  exists g' w',
    PerplexityClient.next
      (PerplexityClient.Created (Examples.client_of Examples.galaxy)
         (PyStr Examples.question) PyNone PyNone None false) Examples.w0
      = Ok ((StopIteration (PyStr "About 100 billion."), g'), w') /\
    PerplexityClient.next g' w' = Ok ((StopIteration PyNone, g'), w').
Proof.
  assert (H : exists g' w',
             PerplexityClient.next
               (PerplexityClient.Created (Examples.client_of Examples.galaxy)
                  (PyStr Examples.question) PyNone PyNone None false) Examples.w0
               = Ok ((StopIteration (PyStr "About 100 billion."), g'), w'))
    by (vm_compute; eauto).
  destruct H as (g' & w' & H). exists g', w'. split; [exact H|].
  apply (chat_generator_is_single_pass _ _ _ _ _ H). discriminate.
Defined.

Lemma chat_iteration_issues_one_request_witness :
  exists n fs r w',
    (forall fuel, n <= fuel ->
        iterate PerplexityClient.next fuel
                (PerplexityClient.Created (Examples.client_of Examples.galaxy)
                   (PyStr Examples.question) PyNone PyNone None true) [] Examples.w0
          = Ok ((fs, r), w')) /\
    requests (trace w') = 1.
Proof.
  exact (proj2 (proj2 (chat_iteration_issues_one_request (Examples.client_of Examples.galaxy)
                         (PyStr Examples.question) PyNone PyNone None true Examples.w0
                         (synthesized PyNone (PyStr Examples.question)) eq_refl))).
Defined.

Lemma stream_perplexity_response_never_raises_witness :
  exists n fs w',
    forall fuel, n <= fuel ->
      iterate App.next fuel
              (App.Created (Examples.client_of Examples.flaky) 0 "sonar-pro" false) []
              Examples.w_history
        = Ok ((fs, StopIteration PyNone), w').
Proof.
  exact (stream_perplexity_response_never_raises (Examples.client_of Examples.flaky) 0
           "sonar-pro" false Examples.w_history
           [ {| role := "user"; content := PyStr "first" |};
             {| role := "assistant"; content := PyStr "answer" |} ] eq_refl).
Defined.


Lemma turn_without_api_key_witness :
  exists w',
    App.chat_turn 0 ∅ (fun _ _ => inr Examples.galaxy) (Examples.session "DOC")
                  (PyStr "hi") Examples.w_session
      = Ok (Some (Exn ValueError PerplexityClient.KEY_MISSING), w') /\
    trace w' = [] /\
    read_messages (heap w') 0 = Some [ {| role := "user"; content := PyStr "hi" |} ].
Proof.
  apply (turn_without_api_key 0 ∅ (fun _ _ => inr Examples.galaxy) (Examples.session "DOC")
           (PyStr "hi") Examples.w_session [] eq_refl eq_refl).
  left. vm_compute. reflexivity.
Defined.

Lemma turn_with_failing_handle_witness :
  exists w',
    App.chat_turn 0 Examples.environ_k (fun _ _ => inl Examples.timed_out)
                  (Examples.session "DOC") (PyStr "hi") Examples.w_session
      = Ok (Some Examples.timed_out, w') /\
    trace w'
      = [ EvOpenAI "k" "https://api.perplexity.ai";
          EvPrint "Error initializing OpenAI client for Perplexity: timed out" ] /\
    read_messages (heap w') 0 = Some [ {| role := "user"; content := PyStr "hi" |} ].
Proof.
  assert (Henv : Examples.environ_k !! "PERPLEXITY_API_KEY" = Some "k")
    by (vm_compute; reflexivity).
  assert (Hkey : "k" <> "") by discriminate.
  exact (turn_with_failing_handle 0 Examples.environ_k (fun _ _ => inl Examples.timed_out)
           (Examples.session "DOC") (PyStr "hi") Examples.w_session [] "k" Examples.timed_out
           eq_refl eq_refl Henv Hkey eq_refl).
Defined.

Lemma turn_stores_concatenated_fragments_witness :
  exists w',
    App.chat_turn 10 Examples.environ_k (fun _ _ => inr Examples.galaxy)
                  (Examples.session "DOC") (PyStr "hi") Examples.w_session = Ok (None, w') /\
    read_messages (heap w') 0
      = Some [ {| role := "user"; content := PyStr "hi" |};
               {| role := "assistant"; content := PyStr "About 100 billion." |} ].
Proof.
  assert (Henv : Examples.environ_k !! "PERPLEXITY_API_KEY" = Some "k")
    by (vm_compute; reflexivity).
  assert (Hkey : "k" <> "") by discriminate.
  assert (Hfuel : 7 + 1 < 10) by lia.
  exact (turn_stores_concatenated_fragments 10 Examples.environ_k
           (fun _ _ => inr Examples.galaxy) (Examples.session "DOC") (PyStr "hi")
           Examples.w_session [] "k" Examples.galaxy
           eq_refl eq_refl Henv Hkey eq_refl Hfuel eq_refl).
Defined.

Lemma turn_stores_last_rendered_text_witness :
  exists text w',
    App.chat_turn 10 Examples.environ_k (fun _ _ => inr Examples.flaky)
                  (Examples.session "DOC") (PyStr "hi") Examples.w_session = Ok (None, w') /\
    read_messages (heap w') 0
      = Some [ {| role := "user"; content := PyStr "hi" |};
               {| role := "assistant"; content := PyStr text |} ] /\
    last (trace w') = Some (EvMarkdown text).
Proof.
  assert (Henv : Examples.environ_k !! "PERPLEXITY_API_KEY" = Some "k")
    by (vm_compute; reflexivity).
  assert (Hkey : "k" <> "") by discriminate.
  assert (Hfuel : 2 + 1 < 10) by lia.
  destruct (turn_stores_last_rendered_text 10 Examples.environ_k
              (fun _ _ => inr Examples.flaky) (Examples.session "DOC") (PyStr "hi")
              Examples.w_session [] "k" Examples.flaky
              eq_refl eq_refl Henv Hkey eq_refl Hfuel)
    as (text & w' & Hrun & Hstored & Hlast & _).
  exists text, w'. split; [exact Hrun|]. split; [exact Hstored|].
  apply Hlast. discriminate.
Defined.

Lemma turn_keeps_conversation_in_turns_witness :
  exists w' stored,
    App.chat_turn 10 Examples.environ_k (fun _ _ => inr Examples.galaxy)
                  (Examples.session "DOC") (PyStr "second") Examples.w_history = Ok (None, w') /\
    read_messages (heap w') 0 = Some stored /\
    in_turns stored /\ length stored = 4.
Proof.
  assert (Henv : Examples.environ_k !! "PERPLEXITY_API_KEY" = Some "k")
    by (vm_compute; reflexivity).
  assert (Hkey : "k" <> "") by discriminate.
  assert (Hfuel : 7 + 1 < 10) by lia.
  assert (Hturns : in_turns [ {| role := "user"; content := PyStr "first" |};
                              {| role := "assistant"; content := PyStr "answer" |} ])
    by (cbn; auto).
  exact (turn_keeps_conversation_in_turns 10 Examples.environ_k
           (fun _ _ => inr Examples.galaxy) (Examples.session "DOC") (PyStr "second")
           Examples.w_history _ "k" Examples.galaxy
           eq_refl eq_refl Henv Hkey eq_refl Hfuel Hturns).
Defined.

Lemma turn_request_keeps_roles_witness :
  exists w' evs body,
    App.chat_turn 10 Examples.environ_k (fun _ _ => inr Examples.galaxy)
                  (Examples.session "DOC") (PyStr "second") Examples.w_history = Ok (None, w') /\
    trace w' = [EvOpenAI "k" "https://api.perplexity.ai"; EvCreate "sonar-pro" body true] ++ evs /\
    role <$> body = ["system"; "user"; "assistant"; "user"].
Proof.
  assert (Henv : Examples.environ_k !! "PERPLEXITY_API_KEY" = Some "k")
    by (vm_compute; reflexivity).
  assert (Hkey : "k" <> "") by discriminate.
  assert (Hfuel : 7 + 1 < 10) by lia.
  destruct (turn_request_keeps_roles 10 Examples.environ_k
              (fun _ _ => inr Examples.galaxy) (Examples.session "DOC") (PyStr "second")
              Examples.w_history
              [ {| role := "user"; content := PyStr "first" |};
                {| role := "assistant"; content := PyStr "answer" |} ]
              "k" Examples.galaxy eq_refl eq_refl Henv Hkey eq_refl Hfuel)
    as (w' & evs & Hrun & Htrace & _ & Hroles).
  eexists w', evs, _. split; [exact Hrun|]. split; [exact Htrace|exact Hroles].
Defined.

Lemma turn_requests_selected_model_witness :
  exists w' evs body,
    App.chat_turn 10 Examples.environ_k (fun _ _ => inr Examples.galaxy)
                  (Examples.session "DOC") (PyStr "hi") Examples.w_session = Ok (None, w') /\
    trace w' = [EvOpenAI "k" "https://api.perplexity.ai"; EvCreate "sonar-pro" body true] ++ evs.
Proof.
  assert (Henv : Examples.environ_k !! "PERPLEXITY_API_KEY" = Some "k")
    by (vm_compute; reflexivity).
  assert (Hkey : "k" <> "") by discriminate.
  assert (Hfuel : 7 + 1 < 10) by lia.
  assert (Hin : "sonar-pro" ∈ App.AVAILABLE_MODELS) by (apply elem_of_cons; now left).
  destruct (turn_requests_selected_model 10 Examples.environ_k
              (fun _ _ => inr Examples.galaxy) (Examples.session "DOC") (PyStr "hi")
              Examples.w_session [] "k" Examples.galaxy
              eq_refl eq_refl Henv Hkey eq_refl Hfuel Hin)
    as (w' & evs & Hrun & Htrace).
  eexists w', evs, _. split; [exact Hrun|exact Htrace].
Defined.

Lemma session_init_idempotent_witness :
  exists state' w',
    Session.init Scenarios.old_state Examples.w_history = Ok (state', w') /\
    Session.init state' w' = Ok (state', w').
Proof.
  destruct (Session.init Scenarios.old_state Examples.w_history) as [[state' w']| |] eqn:H.
  - exists state', w'. split; [reflexivity|].
    exact (session_init_idempotent Scenarios.old_state state' Examples.w_history w' H).
  - apply False_ind. unfold Session.init, bind, ret in H.
    destruct (Scenarios.old_state !! "messages"); discriminate H.
  - apply False_ind. unfold Session.init, bind, ret in H.
    destruct (Scenarios.old_state !! "messages"); discriminate H.
Defined.

Lemma session_init_creates_empty_conversation_witness :
  exists state' w',
    Session.init ∅ Examples.w_history = Ok (state', w') /\
    state' !! "messages" = Some (Session.EList 3) /\
    read_messages (heap w') 3 = Some [].
Proof.
  destruct (session_init_creates_empty_conversation ∅ Examples.w_history (lookup_empty _))
    as (state' & w' & Hrun & Hm & Hr & _).
  exists state', w'. auto.
Defined.

Lemma session_init_defaults_witness :
  exists state' w',
    Session.init ∅ Examples.w0 = Ok (state', w') /\
    Session.view state'
      = Some {| App.messages := 0; App.pdf_content := "";
                App.system_prompt := "Be precise and concise."; App.model := "sonar-pro" |}.
Proof.
  destruct (session_init_defaults ∅ Examples.w0 (lookup_empty _) (lookup_empty _)
              (lookup_empty _) (lookup_empty _)) as (state' & w' & Hrun & Hview & _).
  exists state', w'. auto.
Defined.

Lemma preview_bounds_witness :
  Session.preview Scenarios.euros = Scenarios.euros.
Proof.
  apply (proj1 (proj2 (preview_bounds Scenarios.euros))).
  unfold Scenarios.euros. rewrite length_replicate. lia.
Defined.

Lemma main_output_witness :
  Main.main Scenarios.repr_generator ∅ (fun _ _ => inr Examples.galaxy) Examples.w0
    = Ok (tt, add_events Examples.w0
                [EvPrint ("Configuration Error: " +:+ PerplexityClient.KEY_MISSING)]) /\
  exists w',
    Main.main Scenarios.repr_generator Examples.environ_k (fun _ _ => inr Examples.galaxy)
              Examples.w0 = Ok (tt, w') /\
    last (trace w')
      = Some (EvPrint ("Perplexity response: <generator object PerplexityClient.chat at 0x7f00>"
                         +:+ nl)).
Proof.
  split.
  - apply (proj1 (main_output Scenarios.repr_generator ∅ (fun _ _ => inr Examples.galaxy)
                    Examples.w0)).
    left. apply lookup_empty.
  - eexists. split.
    + apply (proj2 (main_output Scenarios.repr_generator Examples.environ_k
                      (fun _ _ => inr Examples.galaxy) Examples.w0) "k" Examples.galaxy).
      * vm_compute. reflexivity.
      * discriminate.
      * reflexivity.
    + reflexivity.
Defined.
